(** * Users/Tasks REST API: a shallow embedding of the route handlers

    The handlers of [src/routes/users.js] (the users router and, in the
    second half of the same file, the tasks router) are embedded as functions
    on an explicit store holding the two collections.  Every [await]ed
    Mongoose call becomes a step of a small state-and-exception monad; the
    [try { ... } catch (err) { ... }] around each handler becomes [try_catch],
    which keeps the writes made before the exception, as the store does.

    What the sources do not contain is taken as a parameter ([Platform]):
    ObjectId validity, [Date.parse], and the decision of the two Mongoose
    models to accept a document on [create] / [save].

    Conventions of the model:
    - request bodies and query strings carry the types of the schema: a field
      is [undefined] ([None]) or a string / boolean / array of strings;
    - a document is stored under the canonical spelling of its identifier
      (the key of the collection), the one [_id.toString()] gives, and the
      identifiers that requests and documents hold are taken in that
      spelling; DELETE /api/users/:id uses its path identifier both cast, in
      [findByIdAndDelete], and as the plain string, in the filter of
      [updateMany], so there the identifier is taken as the client spells it
      and the cast is [canonical];
    - numbers produced by [parseInt] are exact integers or [NaN];
    - strings are sequences of ASCII characters, so that white space is the
      ASCII white space. *)

From Stdlib Require Import ZArith Ascii.
From stdpp Require Import gmap strings list fin_maps.

Open Scope string_scope.
Open Scope Z_scope.

(** ** JavaScript values used by the handlers *)

(** [!!s] for a value that is [undefined] or a string. *)
Definition truthy (s : option string) : bool :=
  match s with
  | None => false
  | Some "" => false
  | Some _ => true
  end.

(** [s || d] for a value that is [undefined] or a string. *)
Definition or_else (s : option string) (d : string) : string :=
  match s with
  | Some (String c r) => String c r
  | _ => d
  end.

(** [!!b] for a value that is [undefined] or a boolean. *)
Definition truthy_bool (b : option bool) : bool :=
  match b with
  | Some true => true
  | _ => false
  end.

(** A JavaScript number as far as the handlers use one. *)
Inductive jsnum :=
| NaN
| Num (z : Z).

Definition Math_max (a b : jsnum) : jsnum :=
  match a, b with
  | Num x, Num y => Num (Z.max x y)
  | _, _ => NaN
  end.

Definition Math_min (a b : jsnum) : jsnum :=
  match a, b with
  | Num x, Num y => Num (Z.min x y)
  | _, _ => NaN
  end.

(** [a > b] and [a <= b]: both are false as soon as one side is [NaN]. *)
Definition js_gt (a b : jsnum) : bool :=
  match a, b with
  | Num x, Num y => bool_decide (y < x)
  | _, _ => false
  end.

Definition js_le (a b : jsnum) : bool :=
  match a, b with
  | Num x, Num y => bool_decide (x <= y)
  | _, _ => false
  end.

Definition is_space (c : ascii) : bool :=
  let n := nat_of_ascii c in
  bool_decide (n = 32%nat) || (bool_decide (9 <= n)%nat && bool_decide (n <= 13)%nat).

Definition digit_of (c : ascii) : option Z :=
  let n := Z.of_nat (nat_of_ascii c) in
  if bool_decide (48 <= n <= 57) then Some (n - 48) else None.

Fixpoint skip_spaces (s : string) : string :=
  match s with
  | String c r => if is_space c then skip_spaces r else s
  | EmptyString => s
  end.

(** The decimal digits at the front of [s], read after the value [acc]. *)
Fixpoint read_digits (acc : Z) (s : string) : Z :=
  match s with
  | String c r =>
      match digit_of c with
      | Some d => read_digits (10 * acc + d) r
      | None => acc
      end
  | EmptyString => acc
  end.

Definition starts_with_digit (s : string) : bool :=
  match s with
  | String c _ => bool_decide (is_Some (digit_of c))
  | EmptyString => false
  end.

Definition parse_unsigned (s : string) : jsnum :=
  if starts_with_digit s then Num (read_digits 0 s) else NaN.

Definition negate (n : jsnum) : jsnum :=
  match n with
  | Num z => Num (- z)
  | NaN => NaN
  end.

(** [parseInt(s, 10)]: leading white space, an optional sign, then the
    longest run of decimal digits; whatever follows is ignored, and no digit
    at all gives [NaN]. *)
Definition parseInt (s : string) : jsnum :=
  match skip_spaces s with
  | String "-" r => negate (parse_unsigned r)
  | String "+" r => parse_unsigned r
  | t => parse_unsigned t
  end.

(** A [Date] as a document holds it: a time in milliseconds, [null], or the
    invalid date that [new Date(s)] gives for an unparseable [s]. *)
Inductive jsdate :=
| DateAt (ms : Z)
| DateNull
| InvalidDate.

(** ** Documents *)

(** Modelled from the spec: the schema of [models/user.js], which is not
    among the sources.  A user has a name, an email and the ordered list of
    the identifiers of its pending tasks, held as strings. *)
Record User := mkUser {
  user_name : string;
  user_email : string;
  user_pendingTasks : list string
}.

(** Modelled from the spec: the schema of [models/task.js], which is not
    among the sources.  [assignedUser] is the identifier of a user or the
    empty string, [assignedUserName] the copy of a user's name or one of the
    literals "unassigned" and "unknown". *)
Record Task := mkTask {
  task_name : string;
  task_description : string;
  task_deadline : jsdate;
  task_completed : bool;
  task_assignedUser : string;
  task_assignedUserName : string
}.

Definition set_user_pendingTasks (l : list string) (u : User) : User :=
  mkUser (user_name u) (user_email u) l.

Definition set_task_assignedUser (a : string) (t : Task) : Task :=
  mkTask (task_name t) (task_description t) (task_deadline t)
         (task_completed t) a (task_assignedUserName t).

Definition set_task_assignedUserName (n : string) (t : Task) : Task :=
  mkTask (task_name t) (task_description t) (task_deadline t)
         (task_completed t) (task_assignedUser t) n.

(** The update document [{ assignedUser: '', assignedUserName: 'unassigned' }]. *)
Definition unassign (t : Task) : Task :=
  set_task_assignedUserName "unassigned" (set_task_assignedUser "" t).

(** [{ $pull: { pendingTasks: tid } }] and [{ $addToSet: { pendingTasks: tid } }]. *)
Definition pull (tid : string) (l : list string) : list string :=
  filter (λ x, x ≠ tid) l.

Definition addToSet (tid : string) (l : list string) : list string :=
  if decide (tid ∈ l) then l else l ++ [tid].

Definition pull_pendingTasks (tid : string) (u : User) : User :=
  set_user_pendingTasks (pull tid (user_pendingTasks u)) u.

Definition addToSet_pendingTasks (tid : string) (u : User) : User :=
  set_user_pendingTasks (addToSet tid (user_pendingTasks u)) u.

(** ** The store, the platform and the monad of a handler body *)

Record Store := mkStore {
  users : gmap string User;
  tasks : gmap string Task
}.

Definition with_users (f : gmap string User → gmap string User) (st : Store) : Store :=
  mkStore (f (users st)) (tasks st).

Definition with_tasks (f : gmap string Task → gmap string Task) (st : Store) : Store :=
  mkStore (users st) (f (tasks st)).

(** What the handlers call and the sources do not define. *)
Class Platform := {
  (** [mongoose.Types.ObjectId.isValid]; casting an identifier that is not
      valid is what makes a query by id throw a [CastError]. *)
  isValid : string → bool;
  (** The spelling of the ObjectId that a valid identifier is cast to,
      [new ObjectId(id).toString()]. *)
  canonical : string → string;
  (** [Date.parse]: [None] stands for [NaN]. *)
  Date_parse : string → option Z;
  (** Whether [models/task.js] lets the document be written under the given
      identifier (validators, casts and indexes of the schema). *)
  task_accepts : gmap string Task → string → Task → bool;
  (** The same for [models/user.js]. *)
  user_accepts : gmap string User → string → User → bool
}.

Inductive Exn :=
| CastError (value : string)
| ValidationError
| DuplicateKey.

Inductive outcome (A : Type) :=
| Done (a : A)
| Throw (e : Exn).
Arguments Done {A} a.
Arguments Throw {A} e.

Definition M (A : Type) : Type := Store → Store * outcome A.

Definition ret {A} (a : A) : M A := λ st, (st, Done a).

Definition throw {A} (e : Exn) : M A := λ st, (st, Throw e).

Definition bind {A B} (m : M A) (k : A → M B) : M B :=
  λ st, match m st with
        | (st', Done a) => k a st'
        | (st', Throw e) => (st', Throw e)
        end.

Global Instance M_ret : MRet M := @ret.
Global Instance M_bind : MBind M := λ A B k m, bind m k.

(** [for (const x of l) { await body(x) }] *)
Fixpoint for_of {A} (l : list A) (body : A → M unit) : M unit :=
  match l with
  | [] => ret tt
  | x :: r => body x;; for_of r body
  end.

Definition get_store : M Store := λ st, (st, Done st).

Definition put_store (st' : Store) : M unit := λ _, (st', Done tt).

(** ** Requests and responses *)

(** [req.body] of the users routes: [{ name, email, pendingTasks }]. *)
Record UserBody := mkUserBody {
  ub_name : option string;
  ub_email : option string;
  ub_pendingTasks : option (list string)
}.

(** [req.body] of the tasks routes. *)
Record TaskBody := mkTaskBody {
  tb_name : option string;
  tb_description : option string;
  tb_deadline : option string;
  tb_completed : option bool;
  tb_assignedUser : option string;
  tb_assignedUserName : option string
}.

(** The [data] member of the response envelope. *)
Inductive Payload :=
| NoData
| ErrorMessage (err : Exn)
| UserDoc (id : string) (u : User)
| TaskDoc (id : string) (t : Task).

Record Response := mkResponse {
  status : Z;
  message : string;
  data : Payload
}.

Definition sendOK (d : Payload) : Response := mkResponse 200 "OK" d.

Definition sendCreated (d : Payload) : Response := mkResponse 201 "Created" d.

Definition sendError (msg : string) (code : Z) (d : Payload) : Response :=
  mkResponse code msg d.

(** [try { body } catch (err) { return handler(err) }]: the store keeps what
    was written before the exception. *)
Definition try_catch (body : M Response) (handler : Exn → Response)
  : Store → Store * Response :=
  λ st, match body st with
        | (st', Done r) => (st', r)
        | (st', Throw e) => (st', handler e)
        end.

Section Routes.
Context {P : Platform}.

(** ** The Mongoose calls of the handlers *)

(** The cast of the argument of a query by id. *)
Definition cast_id (id : string) : M unit :=
  if isValid id then ret tt else throw (CastError id).

Definition User_findById (id : string) : M (option User) :=
  cast_id id;; st ← get_store; mret (users st !! id).

(** [User.findOne({ email })] *)
Definition User_findOne (email : string) : M (option (string * User)) :=
  st ← get_store;
  mret (head (filter (λ d, user_email d.2 = email) (map_to_list (users st)))).

(** [User.create(doc)], the new document getting the identifier [id]. *)
Definition User_create (id : string) (doc : User) : M User :=
  st ← get_store;
  if negb (user_accepts (users st) id doc) then throw ValidationError
  else if bool_decide (is_Some (users st !! id)) then throw DuplicateKey
  else put_store (with_users (insert id doc) st);; mret doc.

(** [doc.save()] of a document loaded from the collection. *)
Definition User_save (id : string) (doc : User) : M unit :=
  st ← get_store;
  if user_accepts (users st) id doc
  then put_store (with_users (insert id doc) st)
  else throw ValidationError.

Definition User_findByIdAndUpdate (id : string) (update : User → User) : M (option User) :=
  cast_id id;; st ← get_store;
  put_store (with_users (alter update id) st);; mret (users st !! id).

(** [User.findByIdAndDelete(id)]: the document is sought under the ObjectId
    that [id] is cast to. *)
Definition User_findByIdAndDelete (id : string) : M (option User) :=
  cast_id id;; st ← get_store;
  let _id := canonical id in
  put_store (with_users (delete _id) st);; mret (users st !! _id).

Definition Task_findById (id : string) : M (option Task) :=
  cast_id id;; st ← get_store; mret (tasks st !! id).

Definition Task_create (id : string) (doc : Task) : M Task :=
  st ← get_store;
  if negb (task_accepts (tasks st) id doc) then throw ValidationError
  else if bool_decide (is_Some (tasks st !! id)) then throw DuplicateKey
  else put_store (with_tasks (insert id doc) st);; mret doc.

Definition Task_save (id : string) (doc : Task) : M unit :=
  st ← get_store;
  if task_accepts (tasks st) id doc
  then put_store (with_tasks (insert id doc) st)
  else throw ValidationError.

Definition Task_findByIdAndUpdate (id : string) (update : Task → Task) : M (option Task) :=
  cast_id id;; st ← get_store;
  put_store (with_tasks (alter update id) st);; mret (tasks st !! id).

Definition Task_findByIdAndDelete (id : string) : M (option Task) :=
  cast_id id;; st ← get_store;
  put_store (with_tasks (delete id) st);; mret (tasks st !! id).

(** [Task.updateMany(filter, update)] *)
Definition Task_updateMany (filter : Task → bool) (update : Task → Task) : M unit :=
  st ← get_store;
  put_store (with_tasks (fmap (λ t, if filter t then update t else t)) st).

(** ** Users router *)

(** POST /api/users; [newId] is the identifier the new document receives. *)
Definition post_user (newId : string) (body : UserBody) : Store → Store * Response :=
  try_catch
    (if negb (truthy (ub_name body)) || negb (truthy (ub_email body)) then
       mret (sendError "Missing required fields: name and email" 400 NoData)
     else
       let name := default "" (ub_name body) in
       let email := default "" (ub_email body) in
       existing ← User_findOne email;
       if bool_decide (is_Some existing) then
         mret (sendError "Email already exists" 400 NoData)
       else
         user ← User_create newId
                  (mkUser name email (default [] (ub_pendingTasks body)));
         mret (sendCreated (UserDoc newId user)))
    (λ err, sendError "Server error while creating user" 500 (ErrorMessage err)).

(** [Object.assign(user, updates)] *)
Definition assign_user (updates : UserBody) (u : User) : User :=
  mkUser (default (user_name u) (ub_name updates))
         (default (user_email u) (ub_email updates))
         (default (user_pendingTasks u) (ub_pendingTasks updates)).

(** The two loops of PUT /api/users/:id that bring the tasks in line with the
    new [pendingTasks]. *)
Definition sync_pendingTasks (id : string) (user : User) (newTasks : list string) : M unit :=
  let oldTasks := user_pendingTasks user in
  for_of oldTasks (λ tid,
    if negb (bool_decide (tid ∈ newTasks))
    then Task_findByIdAndUpdate tid unassign;; mret tt
    else mret tt);;
  for_of newTasks (λ tid,
    found ← Task_findById tid;
    match found with
    | Some t =>
        let t := set_task_assignedUser id t in
        let t := set_task_assignedUserName (user_name user) t in
        Task_save tid t
    | None => mret tt
    end).

(** PUT /api/users/:id *)
Definition put_user (id : string) (body : UserBody) : Store → Store * Response :=
  try_catch
    (if negb (isValid id) then mret (sendError "Invalid user id" 400 NoData)
     else
       let updates := body in
       found ← User_findById id;
       match found with
       | None => mret (sendError "User not found" 404 NoData)
       | Some user =>
           match ub_pendingTasks updates with
           | Some newTasks => sync_pendingTasks id user newTasks
           | None => mret tt
           end;;
           let user := assign_user updates user in
           User_save id user;;
           mret (sendOK (UserDoc id user))
       end)
    (λ err, sendError "Error updating user" 500 (ErrorMessage err)).

(** DELETE /api/users/:id; the filter [{ assignedUser: id }] compares the
    string field with the path identifier as it is spelled, and the document
    returned carries its own [_id]. *)
Definition delete_user (id : string) : Store → Store * Response :=
  try_catch
    (if negb (isValid id) then mret (sendError "Invalid user id" 400 NoData)
     else
       found ← User_findByIdAndDelete id;
       match found with
       | None => mret (sendError "User not found" 404 NoData)
       | Some user =>
           Task_updateMany (λ t, bool_decide (task_assignedUser t = id)) unassign;;
           mret (sendOK (UserDoc (canonical id) user))
       end)
    (λ err, sendError "Error deleting user" 500 (ErrorMessage err)).

(** ** Tasks router *)

(** [new Date(s)] for a string [s]. *)
Definition new_Date (s : string) : jsdate :=
  match Date_parse s with
  | Some ms => DateAt ms
  | None => InvalidDate
  end.

(** [isNaN(new Date(deadline)) ? new Date() : new Date(deadline)], where
    [now] is the time [new Date()] reads. *)
Definition deadline_or_now (now : Z) (deadline : option string) : jsdate :=
  match deadline with
  | Some s =>
      match Date_parse s with
      | Some ms => DateAt ms
      | None => DateAt now
      end
  | None => DateAt now
  end.

(** The object literal [taskData] of POST /api/tasks. *)
Definition taskData (now : Z) (body : TaskBody) : Task :=
  {| task_name := default "" (tb_name body);
     task_description := or_else (tb_description body) "";
     task_deadline := deadline_or_now now (tb_deadline body);
     task_completed := truthy_bool (tb_completed body);
     task_assignedUser := or_else (tb_assignedUser body) "";
     task_assignedUserName :=
       or_else (tb_assignedUserName body)
               (if truthy (tb_assignedUser body) then "unknown" else "unassigned") |}.

(** POST /api/tasks; [newId] is the identifier the new document receives and
    [now] the current time.  [validDeadline] is a [Date] object, so
    [!validDeadline] is false whatever the request holds. *)
Definition post_task (newId : string) (now : Z) (body : TaskBody)
  : Store → Store * Response :=
  try_catch
    (let not_validDeadline := false in
     if negb (truthy (tb_name body)) || not_validDeadline then
       mret (sendError "Missing required fields: name and deadline" 400 NoData)
     else
       task ← Task_create newId (taskData now body);
       task ← (if truthy (tb_assignedUser body) then
                 let assignedUser := default "" (tb_assignedUser body) in
                 found ← User_findById assignedUser;
                 match found with
                 | Some user =>
                     let task := set_task_assignedUserName (user_name user) task in
                     Task_save newId task;;
                     User_findByIdAndUpdate assignedUser (addToSet_pendingTasks newId);;
                     mret task
                 | None => mret task
                 end
               else mret task);
       mret (sendCreated (TaskDoc newId task)))
    (λ err, sendError "Error creating task" 500 (ErrorMessage err)).

(** The value a [Date] path takes when a string is assigned to it. *)
Definition cast_deadline (s : string) : jsdate :=
  if bool_decide (s = "") then DateNull else new_Date s.

(** [Object.assign(task, updates)] *)
Definition assign_task (updates : TaskBody) (t : Task) : Task :=
  {| task_name := default (task_name t) (tb_name updates);
     task_description := default (task_description t) (tb_description updates);
     task_deadline := default (task_deadline t) (cast_deadline <$> tb_deadline updates);
     task_completed := default (task_completed t) (tb_completed updates);
     task_assignedUser := default (task_assignedUser t) (tb_assignedUser updates);
     task_assignedUserName :=
       default (task_assignedUserName t) (tb_assignedUserName updates) |}.

Definition set_task_deadline (d : jsdate) (t : Task) : Task :=
  mkTask (task_name t) (task_description t) d
         (task_completed t) (task_assignedUser t) (task_assignedUserName t).

(** [Object.assign(task, updates);
     if (updates.deadline) task.deadline = new Date(updates.deadline);] *)
Definition apply_updates (updates : TaskBody) (task : Task) : Task :=
  let task := assign_task updates task in
  if truthy (tb_deadline updates)
  then set_task_deadline (new_Date (default "" (tb_deadline updates))) task
  else task.

(** PUT /api/tasks/:id *)
Definition put_task (id : string) (body : TaskBody) : Store → Store * Response :=
  try_catch
    (if negb (isValid id) then mret (sendError "Invalid task id" 400 NoData)
     else
       let updates := body in
       found ← Task_findById id;
       match found with
       | None => mret (sendError "Task not found" 404 NoData)
       | Some task =>
           let prevUser := task_assignedUser task in
           let newUser := default prevUser (tb_assignedUser updates) in
           let task := apply_updates updates task in
           Task_save id task;;
           task ← (if negb (bool_decide (prevUser = newUser)) then
                     (if bool_decide (prevUser ≠ "")
                      then User_findByIdAndUpdate prevUser (pull_pendingTasks id);; mret tt
                      else mret tt);;
                     (if bool_decide (newUser ≠ "") then
                        found ← User_findById newUser;
                        match found with
                        | Some user =>
                            let task := set_task_assignedUserName (user_name user) task in
                            Task_save id task;;
                            User_findByIdAndUpdate newUser (addToSet_pendingTasks id);;
                            mret task
                        | None => mret task
                        end
                      else mret task)
                   else mret task);
           mret (sendOK (TaskDoc id task))
       end)
    (λ err, sendError "Error updating task" 500 (ErrorMessage err)).

(** DELETE /api/tasks/:id *)
Definition delete_task (id : string) : Store → Store * Response :=
  try_catch
    (if negb (isValid id) then mret (sendError "Invalid task id" 400 NoData)
     else
       found ← Task_findByIdAndDelete id;
       match found with
       | None => mret (sendError "Task not found" 404 NoData)
       | Some task =>
           (if bool_decide (task_assignedUser task ≠ "")
            then User_findByIdAndUpdate (task_assignedUser task) (pull_pendingTasks id);;
                 mret tt
            else mret tt);;
           mret (sendOK (TaskDoc id task))
       end)
    (λ err, sendError "Error deleting task" 500 (ErrorMessage err)).

End Routes.

(** ** [select] and [sort], and the handlers that read one document *)

(** The characters the regular expression [/[\s,]+/] matches, on ASCII. *)
Definition is_separator (c : ascii) : bool :=
  is_space c || bool_decide (c = ","%char).

(** [s.split(/[\s,]+/)]: the pieces between the maximal runs of separators;
    [in_run] tells that the character before was a separator.  A run at the
    front or at the end leaves an empty piece there. *)
Fixpoint split_run (in_run : bool) (s : string) : list string :=
  match s with
  | EmptyString => [""]
  | String c r =>
      if is_separator c then
        if in_run then split_run true r else "" :: split_run true r
      else
        match split_run false r with
        | piece :: rest => String c piece :: rest
        | [] => [String c ""]
        end
  end.

Definition split (s : string) : list string := split_run false s.

(** [pieces.join(sep)] *)
Fixpoint join (sep : string) (pieces : list string) : string :=
  match pieces with
  | [] => ""
  | [x] => x
  | x :: r => x ++ sep ++ join sep r
  end.

(** [parseSelect(selectStr)]; [None] is [null]. *)
Definition parseSelect (selectStr : option string) : option string :=
  if negb (truthy selectStr) then None
  else Some (join " " (split (default "" selectStr))).

(** [parseSort(sortStr)] *)
Definition parseSort (sortStr : option string) : option string :=
  if negb (truthy sortStr) then None
  else Some (join " " (split (default "" sortStr))).

(** [query.select(fields)] on the document found: the empty string keeps
    every field; whether Mongoose and the store accept a non-empty one, and
    what it keeps of a document, is [project]. *)
Definition Query_select {D} (project : string → outcome (D → D)) (fields : string)
  (found : option D) : M (option D) :=
  if bool_decide (fields = "") then mret found
  else match project fields with
       | Done keep => mret (keep <$> found)
       | Throw err => throw err
       end.

Section ReadRoutes.
Context {P : Platform}.
Variable project_user : string → outcome (User → User).
Variable project_task : string → outcome (Task → Task).

(** GET /api/users/:id *)
Definition get_user (id : string) (select : option string)
  : Store → Store * Response :=
  try_catch
    (if negb (isValid id) then mret (sendError "Invalid user id" 400 NoData)
     else
       let projection := parseSelect select in
       found ← User_findById id;
       found ← Query_select project_user (or_else projection "") found;
       match found with
       | None => mret (sendError "User not found" 404 NoData)
       | Some user => mret (sendOK (UserDoc id user))
       end)
    (λ err, sendError "Error fetching user" 500 (ErrorMessage err)).

(** GET /api/tasks/:id *)
Definition get_task (id : string) (select : option string)
  : Store → Store * Response :=
  try_catch
    (if negb (isValid id) then mret (sendError "Invalid task id" 400 NoData)
     else
       let projection := parseSelect select in
       found ← Task_findById id;
       found ← Query_select project_task (or_else projection "") found;
       match found with
       | None => mret (sendError "Task not found" 404 NoData)
       | Some task => mret (sendOK (TaskDoc id task))
       end)
    (λ err, sendError "Error fetching task" 500 (ErrorMessage err)).

End ReadRoutes.

(** ** Listing: how [skip] and [limit] of the query string reach the query

    [where], [sort] and [select] take no part in the computation of
    [skipNum] and [limitNum] and are left out of the request. *)

(** The members of [req.query] that decide the shape of the listing. *)
Record ListQuery := mkListQuery {
  q_skip : option string;
  q_limit : option string;
  q_count : option string
}.

(** What a listing handler asks of the collection: the count of the matching
    documents, or the documents after [.skip(skipNum)]; [find_limit] is the
    argument of [.limit(...)], or [None] when [.limit] is never called. *)
Inductive Listing :=
| CountDocuments
| Find (find_skip : jsnum) (find_limit : option jsnum).

(** [Math.max(0, parseInt(skip || '0', 10))] *)
Definition skipNum (q : ListQuery) : jsnum :=
  Math_max (Num 0) (parseInt (or_else (q_skip q) "0")).

(** [limit ? Math.max(0, parseInt(limit, 10)) : 0] of GET /api/users *)
Definition users_limitNum (q : ListQuery) : jsnum :=
  if truthy (q_limit q)
  then Math_max (Num 0) (parseInt (default "" (q_limit q)))
  else Num 0.

(** [Math.min(1000, Math.max(0, parseInt(limit || '100', 10)))] of GET /api/tasks *)
Definition tasks_limitNum (q : ListQuery) : jsnum :=
  Math_min (Num 1000) (Math_max (Num 0) (parseInt (or_else (q_limit q) "100"))).

(** [String(count) === 'true'] *)
Definition count_requested (q : ListQuery) : bool :=
  bool_decide (q_count q = Some "true").

(** GET /api/users *)
Definition get_users (q : ListQuery) : Listing :=
  if count_requested q then CountDocuments
  else
    let limitNum := users_limitNum q in
    Find (skipNum q) (if js_gt limitNum (Num 0) then Some limitNum else None).

(** GET /api/tasks *)
Definition get_tasks (q : ListQuery) : Listing :=
  if count_requested q then CountDocuments
  else Find (skipNum q) (Some (tasks_limitNum q)).

(** ** A concrete platform and concrete stores, to run the handlers *)

Definition is_hex_digit (c : ascii) : bool :=
  let n := nat_of_ascii c in
  (bool_decide (48 <= n)%nat && bool_decide (n <= 57)%nat)
  || (bool_decide (97 <= n)%nat && bool_decide (n <= 102)%nat).

Fixpoint all_hex (s : string) : bool :=
  match s with
  | String c r => is_hex_digit c && all_hex r
  | EmptyString => true
  end.

(** Identifiers are the strings of 24 lower-case hexadecimal digits, each
    its own canonical spelling; dates are written as their count of
    milliseconds, and both schemas require their named fields and refuse an
    invalid date. *)
Definition sample_platform : Platform :=
  {| isValid := λ s, bool_decide (String.length s = 24%nat) && all_hex s;
     canonical := λ s, s;
     Date_parse := λ s, match parseInt s with Num z => Some z | NaN => None end;
     task_accepts := λ _ _ t,
       negb (bool_decide (task_name t = ""))
       && match task_deadline t with InvalidDate => false | _ => true end;
     user_accepts := λ _ _ u,
       negb (bool_decide (user_name u = ""))
       && negb (bool_decide (user_email u = "")) |}.

(** [A] to [F] become [a] to [f]. *)
Definition lower_hex_digit (c : ascii) : ascii :=
  let n := nat_of_ascii c in
  if bool_decide (65 <= n)%nat && bool_decide (n <= 70)%nat
  then ascii_of_nat (n + 32)
  else c.

Fixpoint lower_hex (s : string) : string :=
  match s with
  | String c r => String (lower_hex_digit c) (lower_hex r)
  | EmptyString => EmptyString
  end.

(** The same platform with the hexadecimal digits accepted in either case, as
    [ObjectId.isValid] accepts them; the cast gives the lower-case spelling. *)
Definition either_case_platform : Platform :=
  {| isValid := λ s,
       bool_decide (String.length s = 24%nat) && all_hex (lower_hex s);
     canonical := lower_hex;
     Date_parse := @Date_parse sample_platform;
     task_accepts := @task_accepts sample_platform;
     user_accepts := @user_accepts sample_platform |}.

Definition ann_id : string := "64a000000000000000000001".

(** Ann's identifier as a client may also spell it. *)
Definition ann_id_upper : string := "64A000000000000000000001".
Definition bob_id : string := "64a000000000000000000002".
Definition ghost_id : string := "64a00000000000000000000f".
Definition task1_id : string := "64b000000000000000000001".
Definition task2_id : string := "64b000000000000000000002".

Definition ann : User := mkUser "Ann" "a@x.com" [task1_id].
Definition bob : User := mkUser "Bob" "b@x.com" [].

(** "Fix bug", assigned to Ann. *)
Definition fix_bug : Task :=
  mkTask "Fix bug" "" (DateAt 1000) false ann_id "Ann".

(** Ann holding her one task, Bob holding none. *)
Definition sample_store : Store :=
  mkStore (<[ann_id := ann]> (<[bob_id := bob]> ∅)) (<[task1_id := fix_bug]> ∅).

(** The same users, but the task listed by Ann is not assigned to anybody:
    the state POST /api/users leaves when it is handed [pendingTasks]. *)
Definition unsynced_store : Store :=
  mkStore (<[ann_id := ann]> (<[bob_id := bob]> ∅))
          (<[task1_id := unassign fix_bug]> ∅).

Definition empty_task_body : TaskBody :=
  mkTaskBody None None None None None None.

(** A request body holding a name and nothing else. *)
Definition write_docs : TaskBody :=
  mkTaskBody (Some "Write docs") None None None None None.

Definition set_tb_assignedUser (a : string) (b : TaskBody) : TaskBody :=
  mkTaskBody (tb_name b) (tb_description b) (tb_deadline b) (tb_completed b)
             (Some a) (tb_assignedUserName b).


Definition set_tb_deadline (d : option string) (b : TaskBody) : TaskBody :=
  mkTaskBody (tb_name b) (tb_description b) d (tb_completed b)
             (tb_assignedUser b) (tb_assignedUserName b).

Definition set_tb_name (n : string) (b : TaskBody) : TaskBody :=
  mkTaskBody (Some n) (tb_description b) (tb_deadline b) (tb_completed b)
             (tb_assignedUser b) (tb_assignedUserName b).

(** ** Consistency of the two collections *)

(** Every task that a user lists and that exists is assigned to that user. *)
Definition listed_tasks_assigned (st : Store) : Prop :=
  ∀ uid u tid t,
    users st !! uid = Some u → tid ∈ user_pendingTasks u →
    tasks st !! tid = Some t → task_assignedUser t = uid.


(** Users are stored under identifiers in their canonical spelling. *)
Definition user_ids_canonical {P : Platform} (st : Store) : Prop :=
  ∀ uid u, users st !! uid = Some u → canonical uid = uid.

(** No user lists the identifier [tid]. *)
Definition unlisted (tid : string) (st : Store) : Prop :=
  ∀ uid u, users st !! uid = Some u → tid ∉ user_pendingTasks u.

(** [" x, y"] with each run of separators replaced by one space; after a
    separator ([in_run]) the run is already accounted for. *)
Fixpoint collapse (in_run : bool) (s : string) : string :=
  match s with
  | EmptyString => ""
  | String c r =>
      if is_separator c then
        if in_run then collapse true r else String " " (collapse true r)
      else String c (collapse false r)
  end.

(** No character of [s] is a separator. *)
Fixpoint separator_free (s : string) : bool :=
  match s with
  | EmptyString => true
  | String c r => negb (is_separator c) && separator_free r
  end.

(** [t.assignedUser = id; t.assignedUserName = name] of the second loop of
    PUT /api/users/:id *)
Definition stamp (id name : string) (t : Task) : Task :=
  set_task_assignedUserName name (set_task_assignedUser id t).



(** [t'] is [t] except, possibly, for [assignedUser] and [assignedUserName]. *)
Definition same_content (t t' : Task) : Prop :=
  task_name t' = task_name t
  ∧ task_description t' = task_description t
  ∧ task_deadline t' = task_deadline t
  ∧ task_completed t' = task_completed t.

(** What the two loops of PUT /api/users/:id may have changed in [s], started
    from [st]. *)
Definition sync_frame (u : User) (new : list string) (st s : Store) : Prop :=
  users s = users st
  ∧ (∀ tid, option_Forall2 same_content (tasks st !! tid) (tasks s !! tid))
  ∧ (∀ tid, tid ∉ new → tid ∉ user_pendingTasks u →
       tasks s !! tid = tasks st !! tid).

(** No two users share an email. *)
Definition emails_unique (st : Store) : Prop :=
  ∀ id1 id2 u1 u2,
    users st !! id1 = Some u1 → users st !! id2 = Some u2 →
    user_email u1 = user_email u2 → id1 = id2.

(** The [select] parameter is absent, or one that the query accepts. *)
Definition select_accepted {D} (project : string → outcome (D → D))
  (select : option string) : Prop :=
  let fields := or_else (parseSelect select) "" in
  fields = "" ∨ ∃ keep, project fields = Done keep.

(** The projection used to run the reading handlers: it accepts every
    [select] and keeps every field. *)
Definition keep_all {D} (fields : string) : outcome (D → D) := Done (λ doc, doc).

(** * Properties *)

(** Unfolds the monad down to functions on the store. *)
Ltac run :=
  unfold try_catch, mbind, M_bind, bind, mret, M_ret, ret, throw,
         get_store, put_store in *; simpl in *.

(** ** Truthiness *)

Lemma truthy_Some (a : string) : a ≠ "" → truthy (Some a) = true.
Proof. by destruct a. Qed.

Lemma falsy_or_else (s : option string) (d : string) :
  truthy s = false → or_else s d = d.
Proof. by destruct s as [[|c r]|]. Qed.

(** ** Lists of task identifiers and collections *)

Lemma pull_not_elem (tid : string) (l : list string) : tid ∉ pull tid l.
Proof. unfold pull. rewrite list_elem_of_filter. tauto. Qed.

Lemma pull_absent (tid : string) (l : list string) : tid ∉ l → pull tid l = l.
Proof.
  unfold pull. induction l as [|x l IH]; intros Hn; [done|].
  rewrite not_elem_of_cons in Hn. destruct Hn as [Hx Hl].
  rewrite filter_cons_True by congruence. by rewrite IH.
Qed.

Lemma addToSet_elem (tid : string) (l : list string) : tid ∈ addToSet tid l.
Proof. unfold addToSet. case_decide; set_solver. Qed.

Lemma addToSet_present (tid : string) (l : list string) :
  tid ∈ l → addToSet tid l = l.
Proof. unfold addToSet. intros. by case_decide. Qed.

Lemma alter_fixed {A} (f : A → A) (k : string) (m : gmap string A) :
  (∀ x, m !! k = Some x → f x = x) → alter f k m = m.
Proof.
  intros Hf. apply map_eq. intros j. rewrite lookup_alter.
  case_decide; [subst j|done].
  destruct (m !! k) as [x|] eqn:E; simpl; [|done]. by rewrite Hf.
Qed.

(** [User.findOne({ email })] finds a document as soon as one user has that
    email. *)
Lemma findOne_hit (m : gmap string User) (id : string) (u : User) :
  m !! id = Some u →
  is_Some (head (filter (λ d : string * User, user_email d.2 = user_email u)
                        (map_to_list m))).
Proof.
  intros Hu.
  assert ((id, u) ∈ filter (λ d : string * User, user_email d.2 = user_email u)
                           (map_to_list m)) as Hin.
  { apply list_elem_of_filter. split; [done|]. by apply elem_of_map_to_list. }
  destruct (filter _ _) as [|d l]; [by apply elem_of_nil in Hin|].
  by exists d.
Qed.

(** ** Loops that leave the store alone *)



(** ** Fields after [apply_updates] *)

Lemma apply_updates_assignedUser (updates : TaskBody) (t : Task) {P : Platform} :
  task_assignedUser (apply_updates updates t)
  = default (task_assignedUser t) (tb_assignedUser updates).
Proof. unfold apply_updates. by destruct (truthy (tb_deadline updates)). Qed.


Section Properties.
Context {P : Platform}.

(** ** POST /api/users *)

(** C7: a POST /api/users whose email is the email of an existing user is
    answered with status 400 and leaves the store as it was, so that no
    document is created; a request without a name or without an email is
    answered with status 400 before any call to the store. *)
Theorem post_user_rejects_duplicate_or_incomplete
  (newId : string) (body : UserBody) (st : Store) :
  (∀ id u, users st !! id = Some u → ub_email body = Some (user_email u) →
     ∃ msg, post_user newId body st = (st, sendError msg 400 NoData))
  ∧ (truthy (ub_name body) = false ∨ truthy (ub_email body) = false →
     post_user newId body st
     = (st, sendError "Missing required fields: name and email" 400 NoData)).
Proof.
  split.
  - intros id u Hu He. unfold post_user.
    destruct (negb (truthy (ub_name body)) || negb (truthy (ub_email body)))
      eqn:Hreq.
    + eexists. reflexivity.
    + unfold User_findOne. run. rewrite He. simpl.
      rewrite bool_decide_true by (by eapply findOne_hit).
      eexists. reflexivity.
  - intros Hmiss. unfold post_user.
    replace (negb (truthy (ub_name body)) || negb (truthy (ub_email body)))
      with true.
    + reflexivity.
    + destruct Hmiss as [-> | ->]; simpl; [done|]. by rewrite orb_true_r.
Qed.

(** ** DELETE /api/users/:id *)

(** X25: DELETE /api/users/:id with a valid path identifier that is cast to
    the identifier of a stored user answers 200 with the deleted document
    and removes that user; it leaves with [assignedUser] empty and
    [assignedUserName] "unassigned" exactly the tasks whose [assignedUser] is
    the path identifier as the request spells it, the other tasks being
    untouched, and the resulting tasks do not depend on the [pendingTasks]
    the user held. *)
Theorem delete_user_unassigns_by_reverse_query
  (id : string) (st : Store) (u : User) :
  isValid id = true →
  users st !! canonical id = Some u →
  ∃ st',
    delete_user id st = (st', sendOK (UserDoc (canonical id) u))
    ∧ users st' = delete (canonical id) (users st)
    ∧ users st' !! canonical id = None
    ∧ (∀ tid t, tasks st !! tid = Some t → task_assignedUser t = id →
         ∃ t', tasks st' !! tid = Some t'
               ∧ task_assignedUser t' = ""
               ∧ task_assignedUserName t' = "unassigned")
    ∧ (∀ tid t, tasks st !! tid = Some t → task_assignedUser t ≠ id →
         tasks st' !! tid = Some t)
    ∧ (∀ l, tasks (delete_user id
                     (with_users (insert (canonical id)
                                    (set_user_pendingTasks l u)) st)).1
            = tasks st').
Proof.
  intros Hid Hu. eexists. split; [|split; [|split; [|split; [|split]]]].
  - unfold delete_user, User_findByIdAndDelete, Task_updateMany, cast_id.
    rewrite Hid. run. rewrite Hu. reflexivity.
  - reflexivity.
  - simpl. apply lookup_delete_eq.
  - intros tid t Ht Ha. simpl. rewrite lookup_fmap, Ht. simpl.
    rewrite bool_decide_true by done. eexists. split; [reflexivity|]. done.
  - intros tid t Ht Ha. simpl. rewrite lookup_fmap, Ht. simpl.
    by rewrite bool_decide_false.
  - intros l. unfold delete_user, User_findByIdAndDelete, Task_updateMany, cast_id.
    rewrite Hid. run. rewrite lookup_insert_eq. reflexivity.
Qed.

(** ** DELETE /api/tasks/:id *)


(** ** POST /api/tasks *)

(** C1: when POST /api/tasks succeeds (status 201) for a request whose
    [assignedUser] is the identifier of an existing user, the stored task
    carries that user's name as [assignedUserName], and the user's
    [pendingTasks] is the former list with the task's identifier added as to
    a set: it contains the identifier, and is unchanged if it already did. *)
Theorem post_task_links_assigned_user
  (newId : string) (now : Z) (body : TaskBody) (st st' : Store) (r : Response)
  (uid : string) (u : User) :
  tb_assignedUser body = Some uid →
  uid ≠ "" →
  users st !! uid = Some u →
  post_task newId now body st = (st', r) →
  status r = 201 →
  ∃ t u',
    r = sendCreated (TaskDoc newId t)
    ∧ tasks st' !! newId = Some t
    ∧ task_assignedUser t = uid
    ∧ task_assignedUserName t = user_name u
    ∧ users st' !! uid = Some u'
    ∧ newId ∈ user_pendingTasks u'
    ∧ user_pendingTasks u' = addToSet newId (user_pendingTasks u)
    ∧ (newId ∈ user_pendingTasks u → user_pendingTasks u' = user_pendingTasks u).
Proof.
  intros Hb Hne Hu Hrun Hst.
  unfold post_task, Task_create, User_findById, Task_save,
         User_findByIdAndUpdate, cast_id in Hrun.
  rewrite Hb in Hrun. rewrite (truthy_Some uid Hne) in Hrun. run.
  destruct (truthy (tb_name body)); simpl in Hrun;
    [|inversion Hrun; subst; discriminate].
  destruct (task_accepts (tasks st) newId (taskData now body)); simpl in Hrun;
    [|inversion Hrun; subst; discriminate].
  destruct (bool_decide (is_Some (tasks st !! newId))); simpl in Hrun;
    [inversion Hrun; subst; discriminate|].
  destruct (isValid uid); simpl in Hrun;
    [|inversion Hrun; subst; discriminate].
  rewrite Hu in Hrun.
  destruct (task_accepts _ newId _); simpl in Hrun;
    [|inversion Hrun; subst; discriminate].
  inversion Hrun; subst; clear Hrun. simpl.
  eexists _, _. split; [reflexivity|]. split; [apply lookup_insert_eq|].
  split; [simpl; unfold taskData; simpl; rewrite Hb; by destruct uid|].
  split; [reflexivity|].
  rewrite lookup_alter_eq, Hu. simpl. split; [reflexivity|]. simpl.
  split; [apply addToSet_elem|]. split; [reflexivity|]. apply addToSet_present.
Qed.


(** ** PUT /api/tasks/:id *)

(** C3: when PUT /api/tasks/:id succeeds (status 200) on a task assigned to
    an existing user A with a request that assigns it to another existing
    user B, A no longer lists the task, B lists it, and the task is stored
    with B as [assignedUser] and B's name as [assignedUserName]. *)
Theorem put_task_moves_reference
  (id : string) (body : TaskBody) (st st' : Store) (r : Response) (t : Task)
  (B : string) (ua ub : User) :
  tasks st !! id = Some t →
  task_assignedUser t ≠ "" →
  tb_assignedUser body = Some B →
  B ≠ "" →
  task_assignedUser t ≠ B →
  users st !! task_assignedUser t = Some ua →
  users st !! B = Some ub →
  put_task id body st = (st', r) →
  status r = 200 →
  ∃ ua' ub' t',
    users st' !! task_assignedUser t = Some ua'
    ∧ (id ∉ user_pendingTasks ua')
    ∧ users st' !! B = Some ub'
    ∧ id ∈ user_pendingTasks ub'
    ∧ tasks st' !! id = Some t'
    ∧ task_assignedUser t' = B
    ∧ task_assignedUserName t' = user_name ub.
Proof.
  intros Ht Ha Hb HB Hne Hua Hub Hrun Hst.
  unfold put_task, Task_findById, Task_save, User_findById,
         User_findByIdAndUpdate, cast_id in Hrun.
  rewrite Hb in Hrun. run.
  destruct (isValid id); simpl in Hrun;
    [|inversion Hrun; subst; discriminate].
  rewrite Ht in Hrun.
  destruct (task_accepts (tasks st) id (apply_updates body t)); simpl in Hrun;
    [|inversion Hrun; subst; discriminate].
  rewrite (bool_decide_false _ Hne) in Hrun. simpl in Hrun.
  rewrite (bool_decide_true _ Ha) in Hrun.
  destruct (isValid (task_assignedUser t)); simpl in Hrun;
    [|inversion Hrun; subst; discriminate].
  rewrite (bool_decide_true _ HB) in Hrun.
  destruct (isValid B); simpl in Hrun;
    [|inversion Hrun; subst; discriminate].
  rewrite lookup_alter_ne, Hub in Hrun by done.
  destruct (task_accepts _ id _); simpl in Hrun;
    [|inversion Hrun; subst; discriminate].
  inversion Hrun; subst; clear Hrun. simpl.
  eexists _, _, _.
  rewrite lookup_alter_ne by done. rewrite !lookup_alter_eq, Hua.
  rewrite lookup_alter_ne, Hub by done. simpl.
  split; [reflexivity|]. split; [apply pull_not_elem|].
  split; [reflexivity|]. split; [apply addToSet_elem|].
  rewrite lookup_insert_eq. split; [reflexivity|]. simpl.
  rewrite apply_updates_assignedUser, Hb. done.
Qed.




(** ** PUT /api/users/:id *)





End Properties.

(** ** GET /api/users and GET /api/tasks *)

(** C9, as the handlers have it: when the [limit] of GET /api/tasks (or "100"
    in its absence) starts with an integer n, the limit of the query is
    min(1000, max(0, n)), between 0 and 1000, and it is 100 when no [limit]
    is supplied; GET /api/users applies no clamp: a [limit] that parses to
    n > 0 is the limit of the query, and without a [limit] the handler never
    calls [.limit], so the listing is unbounded. *)
Theorem listing_limits (q : ListQuery) :
  (∀ n, parseInt (or_else (q_limit q) "100") = Num n →
     tasks_limitNum q = Num (Z.min 1000 (Z.max 0 n))
     ∧ 0 ≤ Z.min 1000 (Z.max 0 n) ≤ 1000)
  ∧ (truthy (q_limit q) = false → tasks_limitNum q = Num 100)
  ∧ (count_requested q = false →
     get_tasks q = Find (skipNum q) (Some (tasks_limitNum q)))
  ∧ (∀ n, truthy (q_limit q) = true →
       parseInt (default "" (q_limit q)) = Num n → 0 < n →
       count_requested q = false →
       get_users q = Find (skipNum q) (Some (Num n)))
  ∧ (truthy (q_limit q) = false → count_requested q = false →
     get_users q = Find (skipNum q) None).
Proof.
  split; [|split; [|split; [|split]]].
  - intros n Hn. unfold tasks_limitNum. rewrite Hn. simpl. split; [reflexivity|lia].
  - intros Hl. unfold tasks_limitNum. by rewrite (falsy_or_else _ _ Hl).
  - intros Hc. unfold get_tasks. by rewrite Hc.
  - intros n Hl Hn Hpos Hc. unfold get_users, users_limitNum.
    rewrite Hc, Hl, Hn. simpl. rewrite bool_decide_true by lia.
    replace (Z.max 0 n) with n by lia. reflexivity.
  - intros Hl Hc. unfold get_users, users_limitNum. by rewrite Hc, Hl.
Qed.

(** * The handlers on concrete requests *)

(** ** The sample stores are states the handlers produce *)

(** Two users are created, then a task assigned to the first. *)
Example sample_store_reachable :
  let s1 := (@post_user sample_platform ann_id
               (mkUserBody (Some "Ann") (Some "a@x.com") None) (mkStore ∅ ∅)).1 in
  let s2 := (@post_user sample_platform bob_id
               (mkUserBody (Some "Bob") (Some "b@x.com") None) s1).1 in
  (@post_task sample_platform task1_id 1000
     (set_tb_name "Fix bug" (set_tb_assignedUser ann_id empty_task_body)) s2).1
  = sample_store.
Proof. vm_compute. reflexivity. Qed.

(** A task is created unassigned, then a user is created with the task in
    the [pendingTasks] of the request. *)
Example unsynced_store_reachable :
  let s1 := (@post_task sample_platform task1_id 1000
               (set_tb_name "Fix bug" empty_task_body) (mkStore ∅ ∅)).1 in
  let s2 := (@post_user sample_platform ann_id
               (mkUserBody (Some "Ann") (Some "a@x.com") (Some [task1_id])) s1).1 in
  (@post_user sample_platform bob_id
     (mkUserBody (Some "Bob") (Some "b@x.com") None) s2).1
  = unsynced_store.
Proof. vm_compute. reflexivity. Qed.

(** ** Unassigning a task through PUT /api/tasks/:id *)

(** C2: on the store where Ann holds "Fix bug", PUT /api/tasks/:id with
    [assignedUser] set to the empty string answers 200 and empties Ann's
    [pendingTasks], but the task is stored with [assignedUserName] still
    "Ann": the handler never writes "unassigned", which the users router
    does write whenever it clears [assignedUser]. *)
Theorem put_task_unassign_keeps_stale_name :
  let body := set_tb_assignedUser "" empty_task_body in
  let out := @put_task sample_platform task1_id body sample_store in
  status out.2 = 200
  ∧ tasks out.1 !! task1_id = Some (set_task_assignedUser "" fix_bug)
  ∧ task_assignedUserName (set_task_assignedUser "" fix_bug) = "Ann"
  ∧ users out.1 !! ann_id = Some (set_user_pendingTasks [] ann).
Proof. vm_compute. repeat split; reflexivity. Qed.

(** ** Deleting a user whose identifier the path spells in upper case *)

(** C4: on the store where Ann holds "Fix bug", DELETE /api/users/:id with
    Ann's identifier spelled in upper case is answered 200 with Ann's
    document and deletes Ann, but "Fix bug" stays assigned to her: the
    filter of [updateMany] compares [assignedUser] with the path string and
    matches no task.  With the identifier spelled as it is stored, the same
    request unassigns the task. *)
Theorem delete_user_other_spelling_keeps_assignment :
  let out := @delete_user either_case_platform ann_id_upper sample_store in
  let out' := @delete_user either_case_platform ann_id sample_store in
  @isValid either_case_platform ann_id_upper = true
  ∧ @canonical either_case_platform ann_id_upper = ann_id
  ∧ users sample_store !! ann_id = Some ann
  ∧ tasks sample_store !! task1_id = Some fix_bug
  ∧ task_assignedUser fix_bug = ann_id
  ∧ out.2 = sendOK (UserDoc ann_id ann)
  ∧ users out.1 !! ann_id = None
  ∧ tasks out.1 !! task1_id = Some fix_bug
  ∧ out'.2 = sendOK (UserDoc ann_id ann)
  ∧ tasks out'.1 !! task1_id = Some (unassign fix_bug).
Proof. vm_compute. repeat split; reflexivity. Qed.

(** ** Requests on which the statements above need their provisos *)





(** GET /api/tasks?limit=abc: the limit handed to the query is [NaN], which
    is not a number at most 1000. *)
Lemma tasks_limit_not_a_number_counterexample :
  let q := mkListQuery None (Some "abc") None in
  get_tasks q = Find (Num 0) (Some NaN)
  ∧ js_le (tasks_limitNum q) (Num 1000) = false
  ∧ ¬ ∃ n, tasks_limitNum q = Num n ∧ n ≤ 1000.
Proof.
  vm_compute. split; [reflexivity|]. split; [reflexivity|].
  intros [n [Hn _]]. discriminate.
Qed.

(** ** The statements at concrete requests *)

(** A second user with Ann's email, and a user without a name. *)
Lemma post_user_rejects_duplicate_or_incomplete_witness :
  let dup := mkUserBody (Some "Anna") (Some "a@x.com") None in
  let nameless := mkUserBody None (Some "c@x.com") None in
  users sample_store !! ann_id = Some ann
  ∧ ub_email dup = Some (user_email ann)
  ∧ truthy (ub_name nameless) = false
  ∧ (∃ msg, @post_user sample_platform ghost_id dup sample_store
            = (sample_store, sendError msg 400 NoData))
  ∧ status (@post_user sample_platform ghost_id nameless sample_store).2 = 400.
Proof.
  intros dup nameless.
  split; [vm_compute; reflexivity|]. split; [reflexivity|]. split; [reflexivity|].
  split.
  - apply (proj1 (@post_user_rejects_duplicate_or_incomplete
                    sample_platform ghost_id dup sample_store) ann_id ann);
      vm_compute; reflexivity.
  - rewrite (proj2 (@post_user_rejects_duplicate_or_incomplete
                      sample_platform ghost_id nameless sample_store)).
    + reflexivity.
    + left. reflexivity.
Defined.

(** Deleting Ann, her identifier spelled in upper case. *)
Lemma delete_user_unassigns_by_reverse_query_witness :
  @isValid either_case_platform ann_id_upper = true
  ∧ users sample_store !! @canonical either_case_platform ann_id_upper = Some ann
  ∧ ∃ st', @delete_user either_case_platform ann_id_upper sample_store
           = (st', sendOK (UserDoc ann_id ann))
           ∧ users st' !! ann_id = None.
Proof.
  assert (@isValid either_case_platform ann_id_upper = true) as Hv
    by (vm_compute; reflexivity).
  assert (users sample_store !! @canonical either_case_platform ann_id_upper
          = Some ann) as Hu by (vm_compute; reflexivity).
  split; [exact Hv|]. split; [exact Hu|].
  destruct (@delete_user_unassigns_by_reverse_query either_case_platform
              ann_id_upper sample_store ann Hv Hu) as (st' & Hrun & _ & Hgone & _).
  exists st'. split; [exact Hrun|exact Hgone].
Defined.


(** Creating a task for Ann. *)
Lemma post_task_links_assigned_user_witness :
  let body := set_tb_assignedUser ann_id write_docs in
  let out := @post_task sample_platform task2_id 2000 body sample_store in
  tb_assignedUser body = Some ann_id
  ∧ ann_id ≠ ""
  ∧ users sample_store !! ann_id = Some ann
  ∧ status out.2 = 201
  ∧ ∃ t u', tasks out.1 !! task2_id = Some t
            ∧ task_assignedUserName t = user_name ann
            ∧ users out.1 !! ann_id = Some u'
            ∧ task2_id ∈ user_pendingTasks u'.
Proof.
  intros body out.
  assert (tb_assignedUser body = Some ann_id) as Hb by reflexivity.
  assert (ann_id ≠ "") as Hne by discriminate.
  assert (users sample_store !! ann_id = Some ann) as Hu by (vm_compute; reflexivity).
  assert (status out.2 = 201) as Hst by (vm_compute; reflexivity).
  do 4 (split; [assumption|]).
  destruct (@post_task_links_assigned_user sample_platform task2_id 2000 body
              sample_store out.1 out.2 ann_id ann Hb Hne Hu
              (surjective_pairing out) Hst)
    as (t & u' & _ & Ht & _ & Hn & Hu' & Hin & _).
  exists t, u'. done.
Defined.


(** Moving Ann's task to Bob. *)
Lemma put_task_moves_reference_witness :
  let body := set_tb_assignedUser bob_id empty_task_body in
  let out := @put_task sample_platform task1_id body sample_store in
  tasks sample_store !! task1_id = Some fix_bug
  ∧ task_assignedUser fix_bug ≠ ""
  ∧ tb_assignedUser body = Some bob_id
  ∧ bob_id ≠ ""
  ∧ task_assignedUser fix_bug ≠ bob_id
  ∧ users sample_store !! task_assignedUser fix_bug = Some ann
  ∧ users sample_store !! bob_id = Some bob
  ∧ status out.2 = 200
  ∧ ∃ ua' ub', users out.1 !! ann_id = Some ua'
               ∧ (task1_id ∉ user_pendingTasks ua')
               ∧ users out.1 !! bob_id = Some ub'
               ∧ task1_id ∈ user_pendingTasks ub'.
Proof.
  intros body out.
  assert (tasks sample_store !! task1_id = Some fix_bug) as Ht
    by (vm_compute; reflexivity).
  assert (task_assignedUser fix_bug ≠ "") as Ha by discriminate.
  assert (tb_assignedUser body = Some bob_id) as Hb by reflexivity.
  assert (bob_id ≠ "") as HB by discriminate.
  assert (task_assignedUser fix_bug ≠ bob_id) as Hne by discriminate.
  assert (users sample_store !! task_assignedUser fix_bug = Some ann) as Hua
    by (vm_compute; reflexivity).
  assert (users sample_store !! bob_id = Some bob) as Hub
    by (vm_compute; reflexivity).
  assert (status out.2 = 200) as Hst by (vm_compute; reflexivity).
  do 8 (split; [assumption|]).
  destruct (@put_task_moves_reference sample_platform task1_id body sample_store
              out.1 out.2 fix_bug bob_id ann bob Ht Ha Hb HB Hne Hua Hub
              (surjective_pairing out) Hst)
    as (ua' & ub' & t' & H1 & H2 & H3 & H4 & _).
  exists ua', ub'. done.
Defined.



(** [limit=5000] against no [limit] at all. *)
Lemma listing_limits_witness :
  let q := mkListQuery None (Some "5000") None in
  let q0 := mkListQuery None None None in
  parseInt (or_else (q_limit q) "100") = Num 5000
  ∧ truthy (q_limit q) = true
  ∧ truthy (q_limit q0) = false
  ∧ count_requested q = false
  ∧ tasks_limitNum q = Num 1000
  ∧ tasks_limitNum q0 = Num 100
  ∧ get_users q = Find (skipNum q) (Some (Num 5000))
  ∧ get_users q0 = Find (skipNum q0) None.
Proof.
  intros q q0.
  assert (parseInt (or_else (q_limit q) "100") = Num 5000) as Hp
    by (vm_compute; reflexivity).
  split; [exact Hp|]. do 3 (split; [reflexivity|]).
  split; [exact (proj1 (proj1 (listing_limits q) 5000 Hp))|].
  split; [exact (proj1 (proj2 (listing_limits q0)) eq_refl)|].
  split.
  - apply (proj1 (proj2 (proj2 (proj2 (listing_limits q)))) 5000);
      [reflexivity|exact Hp|lia|reflexivity].
  - apply (proj2 (proj2 (proj2 (proj2 (listing_limits q0))))); reflexivity.
Defined.

(** * Further properties of the handlers *)

(** ** Auxiliary facts on lists, maps and loops *)

Lemma with_users_delete_absent (st : Store) (id : string) :
  users st !! id = None → with_users (delete id) st = st.
Proof.
  intros Hn. destruct st as [us ts]. unfold with_users. simpl in *.
  by rewrite delete_id.
Qed.

Lemma with_tasks_delete_absent (st : Store) (id : string) :
  tasks st !! id = None → with_tasks (delete id) st = st.
Proof.
  intros Hn. destruct st as [us ts]. unfold with_tasks. simpl in *.
  by rewrite delete_id.
Qed.

Lemma for_of_invariant {A} (Inv : Store → Prop) (l : list A) (body : A → M unit) :
  (∀ x s, x ∈ l → Inv s → Inv (body x s).1) →
  ∀ s, Inv s → Inv (for_of l body s).1.
Proof.
  induction l as [|x l IH]; intros Hbody s Hs; [done|].
  simpl. unfold mbind, M_bind, bind.
  pose proof (Hbody x s ltac:(left) Hs) as Hx.
  destruct (body x s) as [s1 [[]|e]]; simpl in Hx; [|done].
  apply IH; [|done]. intros y s' Hy. apply Hbody. by right.
Qed.

Lemma bind_invariant {A B} (Inv : Store → Prop) (m : M A) (k : A → M B) (s : Store) :
  Inv (m s).1 → (∀ a s', Inv s' → Inv (k a s').1) → Inv ((m ≫= k) s).1.
Proof.
  intros Hm Hk. unfold mbind, M_bind, bind.
  destruct (m s) as [s1 [a|e]]; simpl in *; [by apply Hk|done].
Qed.

Lemma elem_of_pull (tid x : string) (l : list string) :
  x ∈ pull tid l ↔ x ≠ tid ∧ x ∈ l.
Proof. unfold pull. by rewrite list_elem_of_filter. Qed.


Lemma pull_addToSet (tid : string) (l : list string) :
  tid ∉ l → pull tid (addToSet tid l) = l.
Proof.
  intros Hn. unfold addToSet. case_decide; [done|]. unfold pull.
  rewrite filter_app. fold (pull tid l). rewrite pull_absent by done.
  rewrite filter_cons_False by (by intros ?). by rewrite filter_nil, app_nil_r.
Qed.





Lemma same_content_refl (t : Task) : same_content t t.
Proof. by repeat split. Qed.

Lemma same_content_trans (a b c : Task) :
  same_content a b → same_content b c → same_content a c.
Proof. intros (?&?&?&?) (?&?&?&?). repeat split; congruence. Qed.

Lemma option_Forall2_refl' {A} (R : A → A → Prop) (x : option A) :
  (∀ a, R a a) → option_Forall2 R x x.
Proof. intros Hr. destruct x; constructor. apply Hr. Qed.

Lemma option_Forall2_trans' {A} (R : A → A → Prop) (x y z : option A) :
  (∀ a b c, R a b → R b c → R a c) →
  option_Forall2 R x y → option_Forall2 R y z → option_Forall2 R x z.
Proof.
  intros Ht H1 H2. destruct H1; inversion H2; subst; constructor. eauto.
Qed.


Lemma alter_tasks_related (R : Task → Task → Prop) (f : Task → Task) (k : string)
  (m : gmap string Task) :
  (∀ t, R t t) → (∀ t, R t (f t)) →
  ∀ tid, option_Forall2 R (m !! tid) (alter f k m !! tid).
Proof.
  intros Hrefl Hf tid. rewrite lookup_alter. case_decide.
  - subst. destruct (m !! tid); simpl; constructor. apply Hf.
  - destruct (m !! tid); constructor. apply Hrefl.
Qed.






Lemma findOne_miss (m : gmap string User) (email : string) :
  head (filter (λ d : string * User, user_email d.2 = email) (map_to_list m)) = None →
  ∀ id u, m !! id = Some u → user_email u ≠ email.
Proof.
  intros Hh id u Hu He.
  assert ((id, u) ∈ filter (λ d : string * User, user_email d.2 = email)
                           (map_to_list m)) as Hin.
  { apply list_elem_of_filter. split; [done|]. by apply elem_of_map_to_list. }
  destruct (filter _ _); [by apply elem_of_nil in Hin|done].
Qed.

(** ** [split] and [join] *)

Lemma split_run_nonempty (b : bool) (s : string) : split_run b s ≠ [].
Proof.
  revert b. induction s as [|c r IH]; intros b; simpl; [done|].
  destruct (is_separator c); [destruct b; [apply IH|done]|].
  by destruct (split_run false r).
Qed.

Lemma join_cons_char (c : ascii) (p : string) (rest : list string) :
  join " " (String c p :: rest) = String c (join " " (p :: rest)).
Proof. by destruct rest. Qed.

Lemma join_split_run (b : bool) (s : string) :
  join " " (split_run b s) = collapse b s.
Proof.
  revert b. induction s as [|c r IH]; intros b; simpl; [done|].
  destruct (is_separator c).
  - destruct b; [apply IH|].
    pose proof (split_run_nonempty true r) as Hne.
    specialize (IH true). destruct (split_run true r) as [|p rest]; [done|].
    simpl in *. by rewrite <- IH.
  - pose proof (split_run_nonempty false r) as Hne.
    specialize (IH false). destruct (split_run false r) as [|p rest]; [done|].
    rewrite join_cons_char. by rewrite IH.
Qed.

Lemma collapse_idemp (b : bool) (s : string) :
  collapse b (collapse b s) = collapse b s.
Proof.
  revert b. induction s as [|c r IH]; intros b; simpl; [done|].
  destruct (is_separator c) eqn:Ec.
  - destruct b; [apply IH|]. simpl. by rewrite IH.
  - simpl. rewrite Ec. f_equal.
    destruct b; [|apply IH].
    (* after a character that is no separator the flag is reset *)
    apply IH.
Qed.

Lemma split_run_collapse (b : bool) (s : string) :
  split_run b (collapse b s) = split_run b s.
Proof.
  revert b. induction s as [|c r IH]; intros b; simpl; [done|].
  destruct (is_separator c) eqn:Ec.
  - destruct b; [apply IH|]. simpl. by rewrite IH.
  - simpl. rewrite Ec. by rewrite IH.
Qed.

Lemma collapse_separator_free (b : bool) (s : string) :
  separator_free s = true → collapse b s = s.
Proof.
  revert b. induction s as [|c r IH]; intros b Hs; simpl in *; [done|].
  apply andb_true_iff in Hs as [Hc Hr]. apply negb_true_iff in Hc.
  rewrite Hc. f_equal. by apply IH.
Qed.

Lemma collapse_nonempty (s : string) : s ≠ "" → collapse false s ≠ "".
Proof. destruct s as [|c r]; [done|]. intros _. simpl. by destruct (is_separator c). Qed.

Lemma truthy_true (s : option string) :
  truthy s = true → ∃ c r, s = Some (String c r).
Proof. destruct s as [[|c r]|]; [done| |done]. eauto. Qed.

(** ** The stores a handler can leave *)

Section Shapes.
Context {P : Platform}.





Lemma delete_task_store (id : string) (st : Store) :
  (delete_task id st).1 = st
  ∨ ∃ t, tasks st !! id = Some t
         ∧ ((delete_task id st).1 = with_tasks (delete id) st
            ∨ (task_assignedUser t ≠ "" ∧ isValid (task_assignedUser t) = true
               ∧ (delete_task id st).1
                 = with_users (alter (pull_pendingTasks id) (task_assignedUser t))
                     (with_tasks (delete id) st))).
Proof.
  unfold delete_task, Task_findByIdAndDelete, User_findByIdAndUpdate, cast_id. run.
  destruct (isValid id); simpl; [|by left].
  destruct (tasks st !! id) as [t|] eqn:Ht; simpl.
  - right. exists t. split; [done|].
    destruct (bool_decide (task_assignedUser t ≠ "")) eqn:Ea; simpl; [|by left].
    apply bool_decide_eq_true in Ea.
    destruct (isValid (task_assignedUser t)) eqn:Ev; simpl; [|by left].
    right. by repeat split.
  - left. by rewrite with_tasks_delete_absent.
Qed.


(** The first loop of PUT /api/users/:id, run to its end. *)
Lemma unassign_loop_done (new old : list string) (st st1 : Store) :
  for_of old (λ tid,
    if negb (bool_decide (tid ∈ new))
    then Task_findByIdAndUpdate tid unassign;; mret tt
    else mret tt) st = (st1, Done tt) →
  users st1 = users st
  ∧ ∀ x, tasks st1 !! x
         = if bool_decide (x ∈ old ∧ x ∉ new)
           then unassign <$> tasks st !! x else tasks st !! x.
Proof.
  revert st. induction old as [|tid old IH]; intros st Hrun.
  - simpl in Hrun. inversion Hrun; subst. split; [done|]. intros x.
    rewrite bool_decide_false; [done|]. intros [Hx _]. by apply elem_of_nil in Hx.
  - simpl in Hrun. unfold Task_findByIdAndUpdate, cast_id in Hrun. run.
    destruct (bool_decide (tid ∈ new)) eqn:Hin; simpl in Hrun.
    + apply IH in Hrun as [Hu Ht]. split; [done|]. intros x. rewrite Ht.
      apply bool_decide_eq_true in Hin.
      destruct (bool_decide (x ∈ old ∧ x ∉ new)) eqn:E.
      * apply bool_decide_eq_true in E as [E1 E2].
        rewrite bool_decide_true; [done|]. split; [by right|done].
      * apply bool_decide_eq_false in E.
        rewrite bool_decide_false; [done|]. intros [E1 E2]. apply E.
        split; [|done]. apply elem_of_cons in E1 as [->|E1]; done.
    + destruct (isValid tid); simpl in Hrun; [|discriminate].
      apply IH in Hrun as [Hu Ht]. simpl in *. split; [done|]. intros x.
      rewrite Ht. apply bool_decide_eq_false in Hin.
      destruct (decide (x = tid)) as [->|Hne].
      * rewrite lookup_alter_eq.
        rewrite (bool_decide_true (tid ∈ tid :: old ∧ tid ∉ new));
          [|split; [by left|done]].
        case_bool_decide; [|done].
        by destruct (tasks st !! tid).
      * rewrite lookup_alter_ne by done.
        destruct (bool_decide (x ∈ old ∧ x ∉ new)) eqn:E.
        -- apply bool_decide_eq_true in E as [E1 E2].
           rewrite bool_decide_true; [done|]. split; [by right|done].
        -- apply bool_decide_eq_false in E.
           rewrite bool_decide_false; [done|]. intros [E1 E2]. apply E.
           split; [|done]. apply elem_of_cons in E1 as [->|E1]; done.
Qed.

(** The second loop, run to its end. *)
Lemma stamp_loop_done (id name : string) (new : list string) (st st2 : Store) :
  for_of new (λ tid,
    found ← Task_findById tid;
    match found with
    | Some t =>
        let t := set_task_assignedUser id t in
        let t := set_task_assignedUserName name t in
        Task_save tid t
    | None => mret tt
    end) st = (st2, Done tt) →
  users st2 = users st
  ∧ ∀ x, tasks st2 !! x
         = if bool_decide (x ∈ new)
           then stamp id name <$> tasks st !! x else tasks st !! x.
Proof.
  revert st. induction new as [|tid new IH]; intros st Hrun.
  - simpl in Hrun. inversion Hrun; subst. split; [done|]. intros x.
    rewrite bool_decide_false; [done|]. apply not_elem_of_nil.
  - simpl in Hrun. unfold Task_findById, Task_save, cast_id in Hrun. run.
    destruct (isValid tid); simpl in Hrun; [|discriminate].
    destruct (tasks st !! tid) as [t|] eqn:Et; simpl in Hrun.
    + destruct (task_accepts _ _ _); simpl in Hrun; [|discriminate].
      apply IH in Hrun as [Hu Ht]. simpl in *. split; [done|]. intros x.
      rewrite Ht. destruct (decide (x = tid)) as [->|Hne].
      * rewrite lookup_insert_eq, Et. simpl.
        rewrite (bool_decide_true (tid ∈ tid :: new)) by (by left).
        by case_bool_decide.
      * rewrite lookup_insert_ne by done.
        destruct (bool_decide (x ∈ new)) eqn:E.
        -- apply bool_decide_eq_true in E.
           rewrite bool_decide_true; [done|]. by right.
        -- apply bool_decide_eq_false in E.
           rewrite bool_decide_false; [done|]. intros E1. apply E.
           apply elem_of_cons in E1 as [->|E1]; done.
    + apply IH in Hrun as [Hu Ht]. split; [done|]. intros x. rewrite Ht.
      destruct (decide (x = tid)) as [->|Hne].
      * rewrite Et. rewrite (bool_decide_true (tid ∈ tid :: new)) by (by left).
        by case_bool_decide.
      * destruct (bool_decide (x ∈ new)) eqn:E.
        -- apply bool_decide_eq_true in E.
           rewrite bool_decide_true; [done|]. by right.
        -- apply bool_decide_eq_false in E.
           rewrite bool_decide_false; [done|]. intros E1. apply E.
           apply elem_of_cons in E1 as [->|E1]; done.
Qed.

Lemma sync_pendingTasks_done (id : string) (u : User) (new : list string)
  (st st' : Store) :
  sync_pendingTasks id u new st = (st', Done tt) →
  users st' = users st
  ∧ ∀ x, tasks st' !! x
         = if bool_decide (x ∈ new) then stamp id (user_name u) <$> tasks st !! x
           else if bool_decide (x ∈ user_pendingTasks u)
                then unassign <$> tasks st !! x
                else tasks st !! x.
Proof.
  unfold sync_pendingTasks. unfold mbind at 1, M_bind, bind. intros Hrun.
  match type of Hrun with context [for_of ?l ?b st] =>
    destruct (for_of l b st) as [st1 [[]|e]] eqn:H1
  end; [|discriminate].
  apply unassign_loop_done in H1 as [Hu1 Ht1].
  apply stamp_loop_done in Hrun as [Hu2 Ht2].
  split; [congruence|]. intros x. rewrite Ht2, Ht1.
  destruct (bool_decide (x ∈ new)) eqn:En.
  - apply bool_decide_eq_true in En.
    rewrite bool_decide_false; [done|]. by intros [_ ?].
  - apply bool_decide_eq_false in En.
    destruct (bool_decide (x ∈ user_pendingTasks u)) eqn:Eo.
    + apply bool_decide_eq_true in Eo. by rewrite bool_decide_true.
    + apply bool_decide_eq_false in Eo. rewrite bool_decide_false; [done|].
      by intros [? _].
Qed.

(** What the two loops may change, whatever their outcome. *)
Lemma sync_pendingTasks_frame (id : string) (u : User) (new : list string)
  (st : Store) :
  sync_frame u new st (sync_pendingTasks id u new st).1.
Proof.
  unfold sync_pendingTasks. apply bind_invariant.
  - apply for_of_invariant.
    + intros x s Hx (Hu & Hc & Ho).
      destruct (bool_decide (x ∈ new)); simpl; [done|].
      unfold Task_findByIdAndUpdate, cast_id. run.
      destruct (isValid x); simpl; [|done].
      unfold sync_frame, with_tasks; simpl. split; [done|]. split.
      * intros tid. eapply option_Forall2_trans'; [apply same_content_trans|apply Hc|].
        apply alter_tasks_related; [apply same_content_refl|done].
      * intros tid Hn Hno. rewrite lookup_alter_ne; [by apply Ho|].
        by intros ->.
    + split; [done|]. split; [|done]. intros tid.
      apply option_Forall2_refl', same_content_refl.
  - intros _ s' Hs'. apply for_of_invariant; [|done].
    intros x s Hx (Hu & Hc & Ho).
    unfold Task_findById, Task_save, cast_id. run.
    destruct (isValid x); simpl; [|done].
    destruct (tasks s !! x) as [t|] eqn:Et; simpl; [|done].
    destruct (task_accepts _ _ _); simpl; [|done].
    unfold sync_frame, with_tasks; simpl. split; [done|]. split.
    + intros tid. destruct (decide (tid = x)) as [->|Hne].
      * rewrite lookup_insert_eq. specialize (Hc x). rewrite Et in Hc.
        inversion Hc as [t0 t1 Hsc|]; subst. constructor.
        destruct Hsc as (?&?&?&?). by repeat split.
      * rewrite lookup_insert_ne by done. apply Hc.
    + intros tid Hn Hno. rewrite lookup_insert_ne; [by apply Ho|].
      by intros ->.
Qed.

End Shapes.

(** ** Identifiers that are not valid, documents that do not exist *)

Section ErrorsAndReads.
Context {P : Platform}.
Variable project_user : string → outcome (User → User).
Variable project_task : string → outcome (Task → Task).

Lemma get_user_missing (id : string) (sel : option string) (st : Store) :
  isValid id = true → users st !! id = None →
  select_accepted project_user sel →
  get_user project_user id sel st = (st, sendError "User not found" 404 NoData).
Proof.
  intros Hid Hn Hsel. unfold get_user, User_findById, cast_id, Query_select.
  rewrite Hid. run. rewrite Hn. destruct Hsel as [->|[keep Hk]]; [done|].
  case_bool_decide; [done|]. by rewrite Hk.
Qed.

Lemma get_task_missing (id : string) (sel : option string) (st : Store) :
  isValid id = true → tasks st !! id = None →
  select_accepted project_task sel →
  get_task project_task id sel st = (st, sendError "Task not found" 404 NoData).
Proof.
  intros Hid Hn Hsel. unfold get_task, Task_findById, cast_id, Query_select.
  rewrite Hid. run. rewrite Hn. destruct Hsel as [->|[keep Hk]]; [done|].
  case_bool_decide; [done|]. by rewrite Hk.
Qed.

(** X1: the six handlers that take an identifier answer 400 to one that is
    not a valid ObjectId, without touching the store. *)
Theorem invalid_id_rejected (id : string) (st : Store) :
  isValid id = false →
  (∀ sel, get_user project_user id sel st
          = (st, sendError "Invalid user id" 400 NoData))
  ∧ (∀ body, put_user id body st = (st, sendError "Invalid user id" 400 NoData))
  ∧ delete_user id st = (st, sendError "Invalid user id" 400 NoData)
  ∧ (∀ sel, get_task project_task id sel st
            = (st, sendError "Invalid task id" 400 NoData))
  ∧ (∀ body, put_task id body st = (st, sendError "Invalid task id" 400 NoData))
  ∧ delete_task id st = (st, sendError "Invalid task id" 400 NoData).
Proof.
  intros Hid.
  unfold get_user, put_user, delete_user, get_task, put_task, delete_task.
  rewrite Hid. by repeat split.
Qed.



(** ** Reading one document *)

(** X4: GET /api/users/:id and GET /api/tasks/:id never change the store, and
    without a [select] they answer 200 with the document as it is stored. *)
Theorem reads_leave_store (id : string) (sel : option string) (st : Store) :
  (get_user project_user id sel st).1 = st
  ∧ (get_task project_task id sel st).1 = st
  ∧ (∀ u, isValid id = true → users st !! id = Some u → truthy sel = false →
       get_user project_user id sel st = (st, sendOK (UserDoc id u)))
  ∧ (∀ t, isValid id = true → tasks st !! id = Some t → truthy sel = false →
       get_task project_task id sel st = (st, sendOK (TaskDoc id t))).
Proof.
  split; [|split; [|split]].
  - unfold get_user, User_findById, cast_id, Query_select. run.
    destruct (isValid id); simpl; [|done].
    case_bool_decide; simpl; [by destruct (users st !! id)|].
    destruct (project_user _); simpl; [|done].
    by destruct (users st !! id).
  - unfold get_task, Task_findById, cast_id, Query_select. run.
    destruct (isValid id); simpl; [|done].
    case_bool_decide; simpl; [by destruct (tasks st !! id)|].
    destruct (project_task _); simpl; [|done].
    by destruct (tasks st !! id).
  - intros u Hid Hu Hsel. unfold get_user, User_findById, cast_id, parseSelect.
    rewrite Hid, Hsel. run. by rewrite Hu.
  - intros t Hid Ht Hsel. unfold get_task, Task_findById, cast_id, parseSelect.
    rewrite Hid, Hsel. run. by rewrite Ht.
Qed.

(** X5: after a POST answered 201, a GET of the new identifier without
    [select] answers 200 with the very document the 201 response carried. *)
Theorem created_document_is_served
  (newId : string) (now : Z) (st st' : Store) (r : Response) :
  isValid newId = true →
  (∀ body, post_user newId body st = (st', r) → status r = 201 →
     get_user project_user newId None st' = (st', sendOK (data r)))
  ∧ (∀ body, post_task newId now body st = (st', r) → status r = 201 →
       get_task project_task newId None st' = (st', sendOK (data r))).
Proof.
  intros Hid. split.
  - intros body Hrun Hst.
    unfold post_user, User_findOne, User_create in Hrun. run.
    destruct (negb (truthy (ub_name body)) || negb (truthy (ub_email body)));
      simpl in Hrun; [inversion Hrun; subst; discriminate|].
    destruct (bool_decide (is_Some _)); simpl in Hrun;
      [inversion Hrun; subst; discriminate|].
    destruct (user_accepts _ _ _); simpl in Hrun;
      [|inversion Hrun; subst; discriminate].
    destruct (bool_decide (is_Some _)); simpl in Hrun;
      [inversion Hrun; subst; discriminate|].
    inversion Hrun; subst; clear Hrun. simpl.
    unfold get_user, User_findById, cast_id. rewrite Hid. run.
    by rewrite lookup_insert_eq.
  - intros body Hrun Hst.
    unfold post_task, Task_create, User_findById, Task_save,
           User_findByIdAndUpdate, cast_id in Hrun. run.
    destruct (truthy (tb_name body)); simpl in Hrun;
      [|inversion Hrun; subst; discriminate].
    destruct (task_accepts (tasks st) newId (taskData now body)); simpl in Hrun;
      [|inversion Hrun; subst; discriminate].
    destruct (bool_decide (is_Some (tasks st !! newId))); simpl in Hrun;
      [inversion Hrun; subst; discriminate|].
    destruct (truthy (tb_assignedUser body)); simpl in Hrun.
    + destruct (isValid (default "" (tb_assignedUser body))); simpl in Hrun;
        [|inversion Hrun; subst; discriminate].
      destruct (users st !! default "" (tb_assignedUser body)); simpl in Hrun.
      * destruct (task_accepts _ newId _); simpl in Hrun;
          [|inversion Hrun; subst; discriminate].
        inversion Hrun; subst; clear Hrun. simpl.
        unfold get_task, Task_findById, cast_id. rewrite Hid. run.
        by rewrite lookup_insert_eq.
      * inversion Hrun; subst; clear Hrun. simpl.
        unfold get_task, Task_findById, cast_id. rewrite Hid. run.
        by rewrite lookup_insert_eq.
    + inversion Hrun; subst; clear Hrun. simpl.
      unfold get_task, Task_findById, cast_id. rewrite Hid. run.
      by rewrite lookup_insert_eq.
Qed.

(** X6: after DELETE, whatever its answer, the document is no longer stored
    and a GET of its identifier (with an absent or accepted [select])
    answers 404: the task is gone even when DELETE /api/tasks/:id ends in
    500 because the assigned user cannot be cast.  The user deleted is the
    one the path identifier is cast to, and it is of that identifier that
    the GET is made. *)
Theorem deleted_document_is_gone (id : string) (sel : option string) (st : Store) :
  isValid id = true →
  users (delete_user id st).1 !! canonical id = None
  ∧ tasks (delete_task id st).1 !! id = None
  ∧ (isValid (canonical id) = true → select_accepted project_user sel →
     get_user project_user (canonical id) sel (delete_user id st).1
     = ((delete_user id st).1, sendError "User not found" 404 NoData))
  ∧ (select_accepted project_task sel →
     get_task project_task id sel (delete_task id st).1
     = ((delete_task id st).1, sendError "Task not found" 404 NoData)).
Proof.
  intros Hid.
  assert (users (delete_user id st).1 !! canonical id = None) as Hu.
  { unfold delete_user, User_findByIdAndDelete, Task_updateMany, cast_id.
    rewrite Hid. run.
    destruct (users st !! canonical id) eqn:E; simpl; apply lookup_delete_eq. }
  assert (tasks (delete_task id st).1 !! id = None) as Ht.
  { unfold delete_task, Task_findByIdAndDelete, User_findByIdAndUpdate, cast_id.
    rewrite Hid. run.
    destruct (tasks st !! id) as [t|] eqn:E; simpl; [|apply lookup_delete_eq].
    destruct (bool_decide (task_assignedUser t ≠ "")); simpl;
      [|apply lookup_delete_eq].
    destruct (isValid (task_assignedUser t)); simpl; apply lookup_delete_eq. }
  split; [done|]. split; [done|]. split.
  - intros Hc Hsel. by apply get_user_missing.
  - intros Hsel. by apply get_task_missing.
Qed.

End ErrorsAndReads.

Section Writes.
Context {P : Platform}.

(** ** PUT /api/users/:id *)


(** X8: a PUT /api/users/:id that renames the user and sends [pendingTasks]
    in the same request, answered 200, stores the new name on the user but
    writes the former name on the listed tasks. *)
Theorem put_user_stamps_former_name
  (id : string) (body : UserBody) (st st' : Store) (r : Response)
  (u : User) (new : list string) (name' tid : string) (t : Task) :
  users st !! id = Some u →
  ub_pendingTasks body = Some new →
  ub_name body = Some name' →
  tid ∈ new →
  tasks st !! tid = Some t →
  put_user id body st = (st', r) →
  status r = 200 →
  ∃ u' t',
    users st' !! id = Some u' ∧ user_name u' = name'
    ∧ tasks st' !! tid = Some t'
    ∧ task_assignedUser t' = id
    ∧ task_assignedUserName t' = user_name u.
Proof.
  intros Hu Hb Hn Hin Ht Hrun Hst.
  unfold put_user, User_findById, User_save, cast_id in Hrun.
  rewrite Hb in Hrun. run.
  destruct (isValid id); simpl in Hrun; [|inversion Hrun; subst; discriminate].
  rewrite Hu in Hrun.
  destruct (sync_pendingTasks id u new st) as [st1 [[]|e]] eqn:Hsync;
    [|inversion Hrun; subst; discriminate].
  apply sync_pendingTasks_done in Hsync as [Hus Hts].
  destruct (user_accepts _ _ _); simpl in Hrun;
    [|inversion Hrun; subst; discriminate].
  inversion Hrun; subst; clear Hrun. simpl.
  eexists _, _. rewrite lookup_insert_eq. split; [reflexivity|].
  split; [unfold assign_user; simpl; by rewrite Hn|].
  rewrite Hts, bool_decide_true, Ht by done. simpl. done.
Qed.


(** X10: the users router never creates or deletes a task, and changes of a
    task at most [assignedUser] and [assignedUserName]: POST /api/users
    leaves the tasks as they are, PUT and DELETE /api/users/:id keep the
    name, description, deadline and completion of every task, whatever the
    answer. *)
Theorem users_router_keeps_task_content (st : Store) :
  (∀ newId body, tasks (post_user newId body st).1 = tasks st)
  ∧ (∀ id body tid, option_Forall2 same_content
                      (tasks st !! tid) (tasks (put_user id body st).1 !! tid))
  ∧ (∀ id tid, option_Forall2 same_content
                 (tasks st !! tid) (tasks (delete_user id st).1 !! tid)).
Proof.
  assert (∀ tid, option_Forall2 same_content (tasks st !! tid) (tasks st !! tid))
    as Hrefl by (intros; apply option_Forall2_refl', same_content_refl).
  split; [|split].
  - intros newId body. unfold post_user, User_findOne, User_create. run.
    destruct (negb _ || negb _); simpl; [done|].
    destruct (bool_decide (is_Some _)); simpl; [done|].
    destruct (user_accepts _ _ _); simpl; [|done].
    by destruct (bool_decide (is_Some _)).
  - intros id body tid.
    unfold put_user, User_findById, User_save, cast_id. run.
    destruct (isValid id); simpl; [|done].
    destruct (users st !! id) as [u|] eqn:Hu; simpl; [|done].
    destruct (ub_pendingTasks body) as [new|] eqn:Hb.
    + pose proof (sync_pendingTasks_frame id u new st) as (Hus & Hc & Ho).
      destruct (sync_pendingTasks id u new st) as [s1 [[]|e]]; simpl in *;
        [|done].
      by destruct (user_accepts _ _ _).
    + simpl. by destruct (user_accepts _ _ _).
  - intros id tid.
    unfold delete_user, User_findByIdAndDelete, Task_updateMany, cast_id. run.
    destruct (isValid id); simpl; [|done].
    destruct (users st !! canonical id); simpl; [|done].
    rewrite lookup_fmap. destruct (tasks st !! tid) as [t|]; simpl; constructor.
    destruct (bool_decide _); by repeat split.
Qed.

(** ** PUT /api/tasks/:id *)


(** ** What the tasks router does to the users *)


(** ** Every listed task is assigned to the user that lists it *)

(** X13: DELETE /api/tasks/:id and DELETE /api/users/:id keep the invariant
    that every existing task a user lists is assigned to that user, whatever
    their answer; for DELETE /api/users/:id, which unassigns by the path
    string, the users are supposed stored under canonical identifiers. *)
Theorem deletions_keep_listed_tasks_assigned (id : string) (st : Store) :
  listed_tasks_assigned st →
  listed_tasks_assigned (delete_task id st).1
  ∧ (user_ids_canonical st → listed_tasks_assigned (delete_user id st).1).
Proof.
  intros Hinv. split; [|intros Hcan].
  - destruct (delete_task_store id st) as [->|(t & Ht & [->|(Ha & Hv & ->)])];
      [done| |].
    + intros uid u tid t' Hu Hin Ht'. unfold with_tasks in Ht'. simpl in *.
      apply lookup_delete_Some in Ht' as [_ Ht']. by eapply Hinv.
    + intros uid u' tid t' Hu' Hin Ht'. unfold with_users, with_tasks in *.
      simpl in *. apply lookup_delete_Some in Ht' as [_ Ht'].
      apply lookup_alter_Some in Hu' as [(<- & u & Hu & ->)|[Hne Hu]].
      * simpl in Hin. apply elem_of_pull in Hin as [_ Hin]. by eapply Hinv.
      * by eapply Hinv.
  - unfold delete_user, User_findByIdAndDelete, Task_updateMany, cast_id. run.
    destruct (isValid id); simpl; [|done].
    destruct (users st !! canonical id) as [u0|] eqn:Hu0; simpl.
    + intros uid u tid t' Hu Hin Ht'. simpl in *.
      apply lookup_delete_Some in Hu as [Hne Hu].
      rewrite lookup_fmap in Ht'.
      destruct (tasks st !! tid) as [t|] eqn:Ht; simpl in Ht'; [|done].
      pose proof (Hinv uid u tid t Hu Hin Ht) as Ha.
      rewrite bool_decide_false in Ht'; [congruence|].
      intros Hid. apply Hne.
      assert (uid = id) as -> by congruence.
      by apply (Hcan id u).
    + by rewrite with_users_delete_absent.
Qed.



(** ** Creating, then deleting *)

(** X16: a POST /api/tasks answered 201 followed by the DELETE of the new
    task brings the store back to what it was, users included, and the
    DELETE answers 200 with the task the POST returned; the new identifier
    is supposed fresh: no task is stored under it and no user lists it. *)
Theorem post_task_then_delete_task
  (newId : string) (now : Z) (body : TaskBody) (st st1 : Store) (r : Response) :
  isValid newId = true →
  tasks st !! newId = None →
  unlisted newId st →
  post_task newId now body st = (st1, r) →
  status r = 201 →
  delete_task newId st1 = (st, sendOK (data r)).
Proof.
  intros Hid Hfresh Hun Hrun Hst. destruct st as [us ts]. simpl in *.
  unfold post_task, Task_create, User_findById, Task_save,
         User_findByIdAndUpdate, cast_id in Hrun. run.
  destruct (truthy (tb_name body)); simpl in Hrun;
    [|inversion Hrun; subst; discriminate].
  destruct (task_accepts ts newId (taskData now body)); simpl in Hrun;
    [|inversion Hrun; subst; discriminate].
  rewrite Hfresh in Hrun.
  rewrite bool_decide_false in Hrun by (by intros [? ?]). simpl in Hrun.
  unfold delete_task, Task_findByIdAndDelete, User_findByIdAndUpdate, cast_id.
  rewrite Hid. run.
  destruct (tb_assignedUser body) as [[|c a]|] eqn:Hb; simpl in Hrun.
  - inversion Hrun; subst; clear Hrun. simpl. rewrite lookup_insert_eq. simpl.
    rewrite Hb. simpl. unfold with_tasks. simpl.
    by rewrite delete_insert_id.
  - destruct (isValid (String c a)) eqn:Hv; simpl in Hrun;
      [|inversion Hrun; subst; discriminate].
    destruct (us !! String c a) as [u|] eqn:Hu; simpl in Hrun.
    + destruct (task_accepts _ _ _); simpl in Hrun;
        [|inversion Hrun; subst; discriminate].
      inversion Hrun; subst; clear Hrun. simpl. rewrite lookup_insert_eq. simpl.
      rewrite Hb. simpl. rewrite Hv. simpl. unfold with_users, with_tasks. simpl.
      rewrite insert_insert_eq, delete_insert_id by done.
      rewrite alter_alter_eq. rewrite alter_fixed; [done|].
      intros x Hx. assert (x = u) as -> by congruence.
      unfold pull_pendingTasks, addToSet_pendingTasks. simpl.
      rewrite pull_addToSet; [by destruct u|]. by eapply Hun.
    + inversion Hrun; subst; clear Hrun. simpl. rewrite lookup_insert_eq. simpl.
      rewrite Hb. simpl. rewrite Hv. simpl. unfold with_users, with_tasks. simpl.
      rewrite delete_insert_id by done.
      rewrite alter_fixed; [done|]. intros x Hx. congruence.
  - inversion Hrun; subst; clear Hrun. simpl. rewrite lookup_insert_eq. simpl.
    rewrite Hb. simpl. unfold with_tasks. simpl.
    by rewrite delete_insert_id.
Qed.

(** ** POST /api/users *)

(** POST /api/users leaves the store as it was, or adds one user whose email
    no other user has. *)
Lemma post_user_store (newId : string) (body : UserBody) (st : Store) :
  (post_user newId body st).1 = st
  ∨ ∃ u, users st !! newId = None
         ∧ (∀ id u0, users st !! id = Some u0 → user_email u0 ≠ user_email u)
         ∧ (post_user newId body st).1 = with_users (insert newId u) st.
Proof.
  unfold post_user, User_findOne, User_create. run.
  destruct (negb _ || negb _); simpl; [by left|].
  destruct (head _) as [d|] eqn:Hh; simpl; [by left|].
  destruct (user_accepts _ _ _); simpl; [|by left].
  destruct (users st !! newId) eqn:Hfresh; simpl; [by left|].
  right. eexists. split; [done|]. split; [|reflexivity].
  simpl. by apply findOne_miss.
Qed.

(** X17: a POST /api/users answered 201 had a non-empty name and email, an
    email no stored user has and a fresh identifier; it stores exactly the
    name, the email and the [pendingTasks] of the request (none: the empty
    list) and changes no task, so the list is not checked against the
    tasks. *)
Theorem post_user_stores_request
  (newId : string) (body : UserBody) (st st' : Store) (r : Response) :
  post_user newId body st = (st', r) →
  status r = 201 →
  ∃ name email,
    ub_name body = Some name ∧ name ≠ ""
    ∧ ub_email body = Some email ∧ email ≠ ""
    ∧ users st !! newId = None
    ∧ (∀ id u, users st !! id = Some u → user_email u ≠ email)
    ∧ users st' = <[newId := mkUser name email (default [] (ub_pendingTasks body))]>
                    (users st)
    ∧ tasks st' = tasks st
    ∧ data r = UserDoc newId (mkUser name email (default [] (ub_pendingTasks body))).
Proof.
  intros Hrun Hst. unfold post_user, User_findOne, User_create in Hrun. run.
  destruct (ub_name body) as [[|c1 name]|] eqn:Hn; simpl in Hrun;
    try (inversion Hrun; subst; discriminate).
  destruct (ub_email body) as [[|c2 email]|] eqn:He; simpl in Hrun;
    try (inversion Hrun; subst; discriminate).
  destruct (head _) as [d|] eqn:Hh; simpl in Hrun;
    [inversion Hrun; subst; discriminate|].
  destruct (user_accepts _ _ _); simpl in Hrun;
    [|inversion Hrun; subst; discriminate].
  destruct (users st !! newId) eqn:Hfresh; simpl in Hrun;
    [inversion Hrun; subst; discriminate|].
  inversion Hrun; subst; clear Hrun. simpl.
  exists (String c1 name), (String c2 email).
  repeat split; try done. by apply findOne_miss.
Qed.

(** X18: POST /api/users keeps the emails of the stored users pairwise
    distinct, whatever its answer. *)
Theorem post_user_keeps_emails_unique
  (newId : string) (body : UserBody) (st : Store) :
  emails_unique st → emails_unique (post_user newId body st).1.
Proof.
  intros Huniq.
  destruct (post_user_store newId body st) as [->|(u & Hfresh & Hnew & ->)];
    [done|].
  intros id1 id2 u1 u2 H1 H2 He. unfold with_users in *. simpl in *.
  apply lookup_insert_Some in H1 as [[<- <-]|[Hn1 H1]];
    apply lookup_insert_Some in H2 as [[<- <-]|[Hn2 H2]]; [done| | |].
  - exfalso. by eapply Hnew.
  - exfalso. by eapply Hnew.
  - by eapply Huniq.
Qed.

(** X19: after a POST /api/users answered 201, any further POST /api/users
    with the same email and some name is answered 400 "Email already
    exists" and changes nothing. *)
Theorem post_user_twice_rejected
  (newId newId' : string) (body body' : UserBody) (st st1 : Store) (r1 : Response) :
  post_user newId body st = (st1, r1) →
  status r1 = 201 →
  ub_email body' = ub_email body →
  truthy (ub_name body') = true →
  post_user newId' body' st1 = (st1, sendError "Email already exists" 400 NoData).
Proof.
  intros Hrun Hst He Hn.
  unfold post_user, User_findOne, User_create in Hrun. run.
  destruct (ub_name body) as [[|c1 name]|] eqn:Hn1; simpl in Hrun;
    try (inversion Hrun; subst; discriminate).
  destruct (ub_email body) as [[|c2 email]|] eqn:He1; simpl in Hrun;
    try (inversion Hrun; subst; discriminate).
  destruct (bool_decide (is_Some _)); simpl in Hrun;
    [inversion Hrun; subst; discriminate|].
  destruct (user_accepts _ _ _); simpl in Hrun;
    [|inversion Hrun; subst; discriminate].
  destruct (bool_decide (is_Some _)); simpl in Hrun;
    [inversion Hrun; subst; discriminate|].
  inversion Hrun; subst; clear Hrun.
  unfold post_user, User_findOne. rewrite Hn, He. run.
  rewrite bool_decide_true; [done|].
  apply (findOne_hit _ newId (mkUser (String c1 name) (String c2 email)
                                (default [] (ub_pendingTasks body)))).
  apply lookup_insert_eq.
Qed.

(** ** POST /api/tasks *)

(** X20: POST /api/tasks rejects a request only for its missing name (400,
    store untouched): a request with a name is answered 201 or 500, never
    400, whatever its deadline, and a deadline that does not parse is
    treated exactly as an absent one; a task created with status 201 carries
    the name of the request, the description or the empty string,
    [completed] as a boolean, and always a valid deadline: the parsed one, or
    the current time when the request has none or one that does not parse. *)
Theorem post_task_requires_only_name
  (newId : string) (now : Z) (body : TaskBody) (st : Store) :
  (truthy (tb_name body) = false →
     post_task newId now body st
     = (st, sendError "Missing required fields: name and deadline" 400 NoData))
  ∧ (truthy (tb_name body) = true →
       status (post_task newId now body st).2 = 201
       ∨ status (post_task newId now body st).2 = 500)
  ∧ (∀ s, Date_parse s = None →
       post_task newId now (set_tb_deadline (Some s) body) st
       = post_task newId now (set_tb_deadline None body) st)
  ∧ (∀ st' r, post_task newId now body st = (st', r) → status r = 201 →
       ∃ t, data r = TaskDoc newId t
            ∧ tasks st' !! newId = Some t
            ∧ tb_name body = Some (task_name t)
            ∧ task_description t = or_else (tb_description body) ""
            ∧ task_completed t = truthy_bool (tb_completed body)
            ∧ (∃ ms, task_deadline t = DateAt ms)
            ∧ (∀ s ms, tb_deadline body = Some s → Date_parse s = Some ms →
                 task_deadline t = DateAt ms)
            ∧ (∀ s, tb_deadline body = Some s → Date_parse s = None →
                 task_deadline t = DateAt now)
            ∧ (tb_deadline body = None → task_deadline t = DateAt now)).
Proof.
  split; [|split; [|split]].
  - intros Hn. unfold post_task. by rewrite Hn.
  - intros Hn.
    unfold post_task, Task_create, User_findById, Task_save,
           User_findByIdAndUpdate, cast_id. run. rewrite Hn. simpl.
    destruct (task_accepts (tasks st) newId (taskData now body)); simpl;
      [|by right].
    destruct (bool_decide (is_Some (tasks st !! newId))); simpl; [by right|].
    destruct (truthy (tb_assignedUser body)); simpl; [|by left].
    destruct (isValid (default "" (tb_assignedUser body))); simpl; [|by right].
    destruct (users st !! default "" (tb_assignedUser body)) as [u|]; simpl;
      [|by left].
    destruct (task_accepts _ newId _); simpl; [by left|by right].
  - intros s Hs.
    assert (taskData now (set_tb_deadline (Some s) body)
            = taskData now (set_tb_deadline None body)) as Hdata.
    { unfold taskData, deadline_or_now. simpl. by rewrite Hs. }
    unfold post_task. rewrite Hdata. reflexivity.
  - intros st' r Hrun Hst.
    assert (∀ t, (∃ n, set_task_assignedUserName n (taskData now body) = t) →
              truthy (tb_name body) = true →
              tb_name body = Some (task_name t)
              ∧ task_description t = or_else (tb_description body) ""
              ∧ task_completed t = truthy_bool (tb_completed body)
              ∧ (∃ ms, task_deadline t = DateAt ms)
              ∧ (∀ s ms, tb_deadline body = Some s → Date_parse s = Some ms →
                   task_deadline t = DateAt ms)
              ∧ (∀ s, tb_deadline body = Some s → Date_parse s = None →
                   task_deadline t = DateAt now)
              ∧ (tb_deadline body = None → task_deadline t = DateAt now)) as Hfields.
    { intros t [n <-] Hname. simpl. unfold deadline_or_now.
      split; [by destruct (tb_name body) as [[|]|]|]. split; [done|].
      split; [done|]. split.
      - destruct (tb_deadline body) as [s|]; [|eauto].
        destruct (Date_parse s); eauto.
      - split; [|split].
        + intros s ms -> ->. done.
        + intros s -> ->. done.
        + intros ->. done. }
    unfold post_task, Task_create, User_findById, Task_save,
           User_findByIdAndUpdate, cast_id in Hrun. run.
    destruct (truthy (tb_name body)) eqn:Hname; simpl in Hrun;
      [|inversion Hrun; subst; discriminate].
    destruct (task_accepts (tasks st) newId (taskData now body)); simpl in Hrun;
      [|inversion Hrun; subst; discriminate].
    destruct (bool_decide (is_Some (tasks st !! newId))); simpl in Hrun;
      [inversion Hrun; subst; discriminate|].
    destruct (truthy (tb_assignedUser body)); simpl in Hrun.
    + destruct (isValid (default "" (tb_assignedUser body))); simpl in Hrun;
        [|inversion Hrun; subst; discriminate].
      destruct (users st !! default "" (tb_assignedUser body)) as [u|];
        simpl in Hrun.
      * destruct (task_accepts _ newId _); simpl in Hrun;
          [|inversion Hrun; subst; discriminate].
        inversion Hrun; subst; clear Hrun. simpl.
        eexists. split; [reflexivity|]. rewrite lookup_insert_eq.
        split; [reflexivity|]. apply Hfields; [by eexists|done].
      * inversion Hrun; subst; clear Hrun. simpl.
        eexists. split; [reflexivity|]. rewrite lookup_insert_eq.
        split; [reflexivity|]. apply Hfields; [|done].
        exists (task_assignedUserName (taskData now body)). done.
    + inversion Hrun; subst; clear Hrun. simpl.
      eexists. split; [reflexivity|]. rewrite lookup_insert_eq.
      split; [reflexivity|]. apply Hfields; [|done].
      exists (task_assignedUserName (taskData now body)). done.
Qed.

End Writes.

(** ** [select], [sort], [skip] and [limit] *)

(** X21: [parseSort] is [parseSelect]; [parseSelect] gives [null] for an
    absent or empty string and otherwise replaces every run of white space
    and commas by one space, which keeps the pieces of the split; it is
    idempotent, and a string without separator is returned as it is. *)
Theorem parseSelect_normalises (selectStr : option string) :
  parseSort selectStr = parseSelect selectStr
  ∧ (truthy selectStr = false → parseSelect selectStr = None)
  ∧ (∀ s, selectStr = Some s → s ≠ "" →
       parseSelect selectStr = Some (collapse false s)
       ∧ split (collapse false s) = split s)
  ∧ parseSelect (parseSelect selectStr) = parseSelect selectStr
  ∧ (∀ s, selectStr = Some s → s ≠ "" → separator_free s = true →
       parseSelect selectStr = selectStr).
Proof.
  split; [done|]. split; [by unfold parseSelect; intros ->|].
  assert (∀ s, s ≠ "" → parseSelect (Some s) = Some (collapse false s)) as Hn.
  { intros s Hs. unfold parseSelect. rewrite (truthy_Some s Hs). simpl.
    unfold split. by rewrite join_split_run. }
  split; [|split].
  - intros s -> Hs. split; [by apply Hn|]. apply split_run_collapse.
  - destruct selectStr as [[|c r]|]; [done| |done].
    rewrite Hn by done. rewrite Hn by (by apply collapse_nonempty).
    by rewrite collapse_idemp.
  - intros s -> Hs Hfree. rewrite Hn by done.
    by rewrite collapse_separator_free.
Qed.

(** X22: with [count=true] both listings only count; otherwise [skip] is
    max(0, n) for a parameter starting with the integer n and 0 without a
    parameter; a [limit] that parses to n <= 0 means no limit for
    GET /api/users but limit 0 for GET /api/tasks, and a [limit] that does
    not parse means no limit for GET /api/users. *)
Theorem listing_edge_cases (q : ListQuery) :
  (count_requested q = true →
     get_users q = CountDocuments ∧ get_tasks q = CountDocuments)
  ∧ (∀ n, parseInt (or_else (q_skip q) "0") = Num n →
       skipNum q = Num (Z.max 0 n) ∧ 0 ≤ Z.max 0 n)
  ∧ (truthy (q_skip q) = false → skipNum q = Num 0)
  ∧ (∀ n, truthy (q_limit q) = true →
       parseInt (default "" (q_limit q)) = Num n → n ≤ 0 →
       count_requested q = false →
       get_users q = Find (skipNum q) None
       ∧ get_tasks q = Find (skipNum q) (Some (Num 0)))
  ∧ (truthy (q_limit q) = true →
     parseInt (default "" (q_limit q)) = NaN →
     count_requested q = false →
     get_users q = Find (skipNum q) None).
Proof.
  split; [|split; [|split; [|split]]].
  - intros Hc. unfold get_users, get_tasks. by rewrite Hc.
  - intros n Hn. unfold skipNum. rewrite Hn. simpl. split; [done|lia].
  - intros Hs. unfold skipNum. by rewrite (falsy_or_else _ _ Hs).
  - intros n Hl Hn Hle Hc. unfold get_users, get_tasks, users_limitNum,
      tasks_limitNum.
    rewrite Hc, Hl, Hn. simpl.
    destruct (truthy_true _ Hl) as (c & r & Hq). rewrite Hq in *. simpl in *.
    rewrite Hn. simpl.
    rewrite bool_decide_false by lia. split; [done|].
    do 3 f_equal. lia.
  - intros Hl Hn Hc. unfold get_users, users_limitNum. by rewrite Hc, Hl, Hn.
Qed.

(** ** The sample store satisfies the invariants *)

Lemma sample_store_listed_tasks_assigned : listed_tasks_assigned sample_store.
Proof.
  intros uid u tid t Hu Hin Ht. unfold sample_store in *. simpl in *.
  apply lookup_insert_Some in Hu as [[<- <-]|[_ Hu]].
  - apply list_elem_of_singleton in Hin. subst tid.
    rewrite lookup_insert_eq in Ht. by inversion Ht.
  - apply lookup_insert_Some in Hu as [[<- <-]|[_ Hu]].
    + by apply elem_of_nil in Hin.
    + by rewrite lookup_empty in Hu.
Defined.


Lemma sample_store_user_ids_canonical :
  @user_ids_canonical sample_platform sample_store.
Proof. intros uid u _. reflexivity. Defined.

Lemma sample_store_unlisted : unlisted task2_id sample_store.
Proof.
  intros uid u Hu Hin. unfold sample_store in *. simpl in *.
  apply lookup_insert_Some in Hu as [[<- <-]|[_ Hu]].
  - apply list_elem_of_singleton in Hin. discriminate.
  - apply lookup_insert_Some in Hu as [[<- <-]|[_ Hu]].
    + by apply elem_of_nil in Hin.
    + by rewrite lookup_empty in Hu.
Defined.

Lemma sample_store_emails_unique : emails_unique sample_store.
Proof.
  intros id1 id2 u1 u2 H1 H2 He. unfold sample_store in *. simpl in *.
  apply lookup_insert_Some in H1 as [[<- <-]|[_ H1]];
    apply lookup_insert_Some in H2 as [[<- <-]|[_ H2]]; [done| | |].
  - apply lookup_insert_Some in H2 as [[<- <-]|[_ H2]]; [discriminate|].
    by rewrite lookup_empty in H2.
  - apply lookup_insert_Some in H1 as [[<- <-]|[_ H1]]; [discriminate|].
    by rewrite lookup_empty in H1.
  - apply lookup_insert_Some in H1 as [[<- <-]|[_ H1]];
      [|by rewrite lookup_empty in H1].
    apply lookup_insert_Some in H2 as [[<- <-]|[_ H2]]; [done|].
    by rewrite lookup_empty in H2.
Defined.

(** ** The further properties at concrete requests *)

Lemma invalid_id_rejected_witness :
  @isValid sample_platform "bob" = false
  ∧ @delete_user sample_platform "bob" sample_store
    = (sample_store, sendError "Invalid user id" 400 NoData).
Proof.
  assert (@isValid sample_platform "bob" = false) as Hv by (vm_compute; reflexivity).
  split; [exact Hv|].
  exact (proj1 (proj2 (proj2 (@invalid_id_rejected sample_platform keep_all keep_all
                                "bob" sample_store Hv)))).
Defined.



Lemma reads_leave_store_witness :
  @isValid sample_platform ann_id = true
  ∧ users sample_store !! ann_id = Some ann
  ∧ truthy None = false
  ∧ @get_user sample_platform keep_all ann_id None sample_store
    = (sample_store, sendOK (UserDoc ann_id ann)).
Proof.
  assert (@isValid sample_platform ann_id = true) as Hv by (vm_compute; reflexivity).
  assert (users sample_store !! ann_id = Some ann) as Hu by (vm_compute; reflexivity).
  split; [exact Hv|]. split; [exact Hu|]. split; [reflexivity|].
  exact (proj1 (proj2 (proj2 (@reads_leave_store sample_platform keep_all keep_all
                                ann_id None sample_store))) ann Hv Hu eq_refl).
Defined.

Lemma created_document_is_served_witness :
  let body := set_tb_assignedUser ann_id write_docs in
  let out := @post_task sample_platform task2_id 2000 body sample_store in
  @isValid sample_platform task2_id = true
  ∧ status out.2 = 201
  ∧ @get_task sample_platform keep_all task2_id None out.1
    = (out.1, sendOK (data out.2)).
Proof.
  intros body out.
  assert (@isValid sample_platform task2_id = true) as Hv by (vm_compute; reflexivity).
  assert (status out.2 = 201) as Hst by (vm_compute; reflexivity).
  split; [exact Hv|]. split; [exact Hst|].
  exact (proj2 (@created_document_is_served sample_platform keep_all keep_all
                  task2_id 2000 sample_store out.1 out.2 Hv)
               body (surjective_pairing out) Hst).
Defined.

Lemma deleted_document_is_gone_witness :
  @isValid sample_platform task1_id = true
  ∧ tasks (@delete_task sample_platform task1_id sample_store).1 !! task1_id = None.
Proof.
  assert (@isValid sample_platform task1_id = true) as Hv by (vm_compute; reflexivity).
  split; [exact Hv|].
  exact (proj1 (proj2 (@deleted_document_is_gone sample_platform keep_all keep_all
                         task1_id None sample_store Hv))).
Defined.


Lemma put_user_stamps_former_name_witness :
  let body := mkUserBody (Some "Anna") None (Some [task1_id]) in
  let out := @put_user sample_platform ann_id body sample_store in
  users sample_store !! ann_id = Some ann
  ∧ ub_pendingTasks body = Some [task1_id]
  ∧ ub_name body = Some "Anna"
  ∧ task1_id ∈ [task1_id]
  ∧ tasks sample_store !! task1_id = Some fix_bug
  ∧ status out.2 = 200
  ∧ ∃ u' t', users out.1 !! ann_id = Some u' ∧ user_name u' = "Anna"
             ∧ tasks out.1 !! task1_id = Some t'
             ∧ task_assignedUserName t' = "Ann".
Proof.
  intros body out.
  assert (users sample_store !! ann_id = Some ann) as Hu by (vm_compute; reflexivity).
  assert (ub_pendingTasks body = Some [task1_id]) as Hb by reflexivity.
  assert (ub_name body = Some "Anna") as Hn by reflexivity.
  assert (task1_id ∈ [task1_id]) as Hin by (by left).
  assert (tasks sample_store !! task1_id = Some fix_bug) as Ht
    by (vm_compute; reflexivity).
  assert (status out.2 = 200) as Hst by (vm_compute; reflexivity).
  do 6 (split; [assumption|]).
  destruct (@put_user_stamps_former_name sample_platform ann_id body sample_store
              out.1 out.2 ann [task1_id] "Anna" task1_id fix_bug
              Hu Hb Hn Hin Ht (surjective_pairing out) Hst)
    as (u' & t' & H1 & H2 & H3 & _ & H5).
  exists u', t'. done.
Defined.



Lemma deletions_keep_listed_tasks_assigned_witness :
  listed_tasks_assigned sample_store
  ∧ @user_ids_canonical sample_platform sample_store
  ∧ listed_tasks_assigned (@delete_user sample_platform ann_id sample_store).1.
Proof.
  split; [exact sample_store_listed_tasks_assigned|].
  split; [exact sample_store_user_ids_canonical|].
  exact (proj2 (@deletions_keep_listed_tasks_assigned sample_platform ann_id
                  sample_store sample_store_listed_tasks_assigned)
               sample_store_user_ids_canonical).
Defined.



Lemma post_task_then_delete_task_witness :
  let body := set_tb_assignedUser ann_id write_docs in
  let out := @post_task sample_platform task2_id 2000 body sample_store in
  @isValid sample_platform task2_id = true
  ∧ tasks sample_store !! task2_id = None
  ∧ unlisted task2_id sample_store
  ∧ status out.2 = 201
  ∧ @delete_task sample_platform task2_id out.1
    = (sample_store, sendOK (data out.2)).
Proof.
  intros body out.
  assert (@isValid sample_platform task2_id = true) as Hv by (vm_compute; reflexivity).
  assert (tasks sample_store !! task2_id = None) as Hf by (vm_compute; reflexivity).
  assert (status out.2 = 201) as Hst by (vm_compute; reflexivity).
  split; [exact Hv|]. split; [exact Hf|]. split; [exact sample_store_unlisted|].
  split; [exact Hst|].
  exact (@post_task_then_delete_task sample_platform task2_id 2000 body
           sample_store out.1 out.2 Hv Hf sample_store_unlisted
           (surjective_pairing out) Hst).
Defined.

Lemma post_user_stores_request_witness :
  let body := mkUserBody (Some "Cy") (Some "c@x.com") (Some [task1_id]) in
  let out := @post_user sample_platform ghost_id body sample_store in
  status out.2 = 201
  ∧ tasks out.1 = tasks sample_store
  ∧ users out.1 !! ghost_id = Some (mkUser "Cy" "c@x.com" [task1_id]).
Proof.
  intros body out.
  assert (status out.2 = 201) as Hst by (vm_compute; reflexivity).
  split; [exact Hst|].
  destruct (@post_user_stores_request sample_platform ghost_id body sample_store
              out.1 out.2 (surjective_pairing out) Hst)
    as (name & email & Hn & _ & He & _ & _ & _ & Hus & Hts & _).
  split; [exact Hts|]. rewrite Hus, lookup_insert_eq.
  inversion Hn; inversion He; subst. reflexivity.
Defined.

Lemma post_user_keeps_emails_unique_witness :
  emails_unique sample_store
  ∧ emails_unique
      (@post_user sample_platform ghost_id
         (mkUserBody (Some "Cy") (Some "c@x.com") None) sample_store).1.
Proof.
  split; [exact sample_store_emails_unique|].
  exact (@post_user_keeps_emails_unique sample_platform ghost_id _ sample_store
           sample_store_emails_unique).
Defined.

Lemma post_user_twice_rejected_witness :
  let body := mkUserBody (Some "Cy") (Some "c@x.com") None in
  let body' := mkUserBody (Some "Cyd") (Some "c@x.com") None in
  let out := @post_user sample_platform ghost_id body sample_store in
  status out.2 = 201
  ∧ ub_email body' = ub_email body
  ∧ truthy (ub_name body') = true
  ∧ @post_user sample_platform task2_id body' out.1
    = (out.1, sendError "Email already exists" 400 NoData).
Proof.
  intros body body' out.
  assert (status out.2 = 201) as Hst by (vm_compute; reflexivity).
  split; [exact Hst|]. split; [reflexivity|]. split; [reflexivity|].
  exact (@post_user_twice_rejected sample_platform ghost_id task2_id body body'
           sample_store out.1 out.2 (surjective_pairing out) Hst eq_refl eq_refl).
Defined.

Lemma post_task_requires_only_name_witness :
  let nameless := mkTaskBody None None (Some "1000") None None None in
  let undated := mkTaskBody (Some "Write docs") None (Some "soon") None None None in
  let out := @post_task sample_platform task2_id 2000 undated sample_store in
  truthy (tb_name nameless) = false
  ∧ status (@post_task sample_platform task2_id 2000 nameless sample_store).2 = 400
  ∧ status out.2 = 201
  ∧ tb_deadline undated = Some "soon"
  ∧ @Date_parse sample_platform "soon" = None
  ∧ (∃ t, tasks out.1 !! task2_id = Some t ∧ task_deadline t = DateAt 2000)
  ∧ truthy (tb_name undated) = true
  ∧ (status out.2 = 201 ∨ status out.2 = 500)
  ∧ out = @post_task sample_platform task2_id 2000 write_docs sample_store.
Proof.
  intros nameless undated out.
  assert (status out.2 = 201) as Hst by (vm_compute; reflexivity).
  assert (@Date_parse sample_platform "soon" = None) as Hd by (vm_compute; reflexivity).
  split; [reflexivity|].
  split.
  { rewrite (proj1 (@post_task_requires_only_name sample_platform task2_id 2000
                      nameless sample_store) eq_refl). reflexivity. }
  split; [exact Hst|]. split; [reflexivity|]. split; [exact Hd|].
  split; [|split; [reflexivity|split]]; cycle 1.
  { exact (proj1 (proj2 (@post_task_requires_only_name sample_platform task2_id
                           2000 undated sample_store)) eq_refl). }
  { exact (proj1 (proj2 (proj2 (@post_task_requires_only_name sample_platform
                                  task2_id 2000 write_docs sample_store)))
                 "soon" Hd). }
  destruct (proj2 (proj2 (proj2 (@post_task_requires_only_name sample_platform
                                   task2_id 2000 undated sample_store)))
              out.1 out.2 (surjective_pairing out) Hst)
    as (t & _ & Ht & _ & _ & _ & _ & _ & Hnone & _).
  exists t. split; [exact Ht|]. exact (Hnone "soon" eq_refl Hd).
Defined.

Lemma parseSelect_normalises_witness :
  " name,email " ≠ ""
  ∧ "name" ≠ "" ∧ separator_free "name" = true
  ∧ parseSelect (Some " name,email ") = Some " name email "
  ∧ parseSelect (Some "name") = Some "name".
Proof.
  split; [discriminate|]. split; [discriminate|]. split; [reflexivity|].
  split.
  - exact (proj1 (proj1 (proj2 (proj2 (parseSelect_normalises
                                         (Some " name,email "))))
                        " name,email " eq_refl ltac:(discriminate))).
  - exact (proj2 (proj2 (proj2 (proj2 (parseSelect_normalises (Some "name")))))
                 "name" eq_refl ltac:(discriminate) eq_refl).
Defined.

Lemma listing_edge_cases_witness :
  let counting := mkListQuery (Some "5") (Some "10") (Some "true") in
  let negative := mkListQuery (Some "-3") (Some "-1") None in
  count_requested counting = true
  ∧ parseInt (or_else (q_skip negative) "0") = Num (-3)
  ∧ truthy (q_limit negative) = true
  ∧ parseInt (default "" (q_limit negative)) = Num (-1)
  ∧ count_requested negative = false
  ∧ get_tasks counting = CountDocuments
  ∧ skipNum negative = Num 0
  ∧ get_users negative = Find (Num 0) None
  ∧ get_tasks negative = Find (Num 0) (Some (Num 0)).
Proof.
  intros counting negative.
  assert (parseInt (or_else (q_skip negative) "0") = Num (-3)) as Hs
    by (vm_compute; reflexivity).
  assert (parseInt (default "" (q_limit negative)) = Num (-1)) as Hl
    by (vm_compute; reflexivity).
  split; [reflexivity|]. split; [exact Hs|]. split; [reflexivity|].
  split; [exact Hl|]. split; [reflexivity|].
  split; [exact (proj2 (proj1 (listing_edge_cases counting) eq_refl))|].
  split; [exact (proj1 (proj1 (proj2 (listing_edge_cases negative)) (-3) Hs))|].
  exact (proj1 (proj2 (proj2 (proj2 (listing_edge_cases negative))))
               (-1) eq_refl Hl ltac:(lia) eq_refl).
Defined.

(** ** Partial updates *)

Section Partial.
Context {P : Platform}.

(** X23: a PUT /api/users/:id answered 200 stores, and returns, the user
    with exactly the fields of the request replaced: a name, an email or a
    list that the request does not hold is kept. *)
Theorem put_user_partial_update
  (id : string) (body : UserBody) (st st' : Store) (r : Response) (u : User) :
  users st !! id = Some u →
  put_user id body st = (st', r) →
  status r = 200 →
  ∃ u', users st' !! id = Some u'
        ∧ data r = UserDoc id u'
        ∧ user_name u' = default (user_name u) (ub_name body)
        ∧ user_email u' = default (user_email u) (ub_email body)
        ∧ user_pendingTasks u'
          = default (user_pendingTasks u) (ub_pendingTasks body).
Proof.
  intros Hu Hrun Hst.
  unfold put_user, User_findById, User_save, cast_id in Hrun. run.
  destruct (isValid id); simpl in Hrun; [|inversion Hrun; subst; discriminate].
  rewrite Hu in Hrun.
  destruct (ub_pendingTasks body) as [new|] eqn:Hb.
  - pose proof (sync_pendingTasks_frame id u new st) as (Hus & _ & _).
    destruct (sync_pendingTasks id u new st) as [s1 [[]|e]]; simpl in *;
      [|inversion Hrun; subst; discriminate].
    destruct (user_accepts _ _ _); simpl in Hrun;
      [|inversion Hrun; subst; discriminate].
    inversion Hrun; subst; clear Hrun. simpl.
    eexists. rewrite lookup_insert_eq. split; [reflexivity|].
    split; [reflexivity|]. unfold assign_user. simpl. by rewrite Hb.
  - simpl in Hrun. destruct (user_accepts _ _ _); simpl in Hrun;
      [|inversion Hrun; subst; discriminate].
    inversion Hrun; subst; clear Hrun. simpl.
    eexists. rewrite lookup_insert_eq. split; [reflexivity|].
    split; [reflexivity|]. unfold assign_user. simpl. by rewrite Hb.
Qed.

(** X24: a PUT /api/tasks/:id answered 200 stores, and returns, the task
    with the name, description, completion and assigned user of the request
    where it holds them and the former ones where it does not; the deadline
    is kept without a [deadline], becomes [null] for an empty one and is
    [new Date(deadline)] otherwise. *)
Theorem put_task_partial_update
  (id : string) (body : TaskBody) (st st' : Store) (r : Response) (t : Task) :
  tasks st !! id = Some t →
  put_task id body st = (st', r) →
  status r = 200 →
  ∃ t', tasks st' !! id = Some t'
        ∧ data r = TaskDoc id t'
        ∧ task_name t' = default (task_name t) (tb_name body)
        ∧ task_description t' = default (task_description t) (tb_description body)
        ∧ task_completed t' = default (task_completed t) (tb_completed body)
        ∧ task_assignedUser t' = default (task_assignedUser t) (tb_assignedUser body)
        ∧ (tb_deadline body = None → task_deadline t' = task_deadline t)
        ∧ (tb_deadline body = Some "" → task_deadline t' = DateNull)
        ∧ (∀ s, tb_deadline body = Some s → s ≠ "" →
             task_deadline t' = new_Date s).
Proof.
  intros Ht Hrun Hst.
  assert (∀ n t', t' = apply_updates body t
                  ∨ t' = set_task_assignedUserName n (apply_updates body t) →
            task_name t' = default (task_name t) (tb_name body)
            ∧ task_description t'
              = default (task_description t) (tb_description body)
            ∧ task_completed t' = default (task_completed t) (tb_completed body)
            ∧ task_assignedUser t'
              = default (task_assignedUser t) (tb_assignedUser body)
            ∧ (tb_deadline body = None → task_deadline t' = task_deadline t)
            ∧ (tb_deadline body = Some "" → task_deadline t' = DateNull)
            ∧ (∀ s, tb_deadline body = Some s → s ≠ "" →
                 task_deadline t' = new_Date s)) as Hfields.
  { intros n t' Ht'. unfold apply_updates, assign_task in Ht'.
    destruct (tb_deadline body) as [[|c s]|] eqn:Hd; simpl in Ht';
      destruct Ht' as [-> | ->]; simpl.
    all: do 4 (split; [reflexivity|]).
    all: split; [intros; try discriminate; try reflexivity|].
    all: split; [intros; try discriminate; try reflexivity|].
    all: intros s0 Hs0 Hne; inversion Hs0; subst; done. }
  unfold put_task, Task_findById, Task_save, User_findById,
         User_findByIdAndUpdate, cast_id in Hrun. run.
  destruct (isValid id); simpl in Hrun; [|inversion Hrun; subst; discriminate].
  rewrite Ht in Hrun.
  destruct (task_accepts (tasks st) id (apply_updates body t)); simpl in Hrun;
    [|inversion Hrun; subst; discriminate].
  destruct (bool_decide (task_assignedUser t = _)); simpl in Hrun.
  { inversion Hrun; subst; clear Hrun. simpl. eexists.
    rewrite lookup_insert_eq. split; [reflexivity|]. split; [reflexivity|].
    apply (Hfields ""). by left. }
  destruct (bool_decide (task_assignedUser t ≠ "")); simpl in Hrun.
  - destruct (isValid (task_assignedUser t)); simpl in Hrun;
      [|inversion Hrun; subst; discriminate].
    destruct (bool_decide (_ ≠ "")); simpl in Hrun.
    + destruct (isValid _); simpl in Hrun;
        [|inversion Hrun; subst; discriminate].
      destruct (alter _ _ _ !! _) as [ub|]; simpl in Hrun.
      * destruct (task_accepts _ _ _); simpl in Hrun;
          [|inversion Hrun; subst; discriminate].
        inversion Hrun; subst; clear Hrun. simpl. eexists.
        rewrite lookup_insert_eq. split; [reflexivity|]. split; [reflexivity|].
        apply (Hfields (user_name ub)). by right.
      * inversion Hrun; subst; clear Hrun. simpl. eexists.
        rewrite lookup_insert_eq. split; [reflexivity|]. split; [reflexivity|].
        apply (Hfields ""). by left.
    + inversion Hrun; subst; clear Hrun. simpl. eexists.
      rewrite lookup_insert_eq. split; [reflexivity|]. split; [reflexivity|].
      apply (Hfields ""). by left.
  - destruct (bool_decide (_ ≠ "")); simpl in Hrun.
    + destruct (isValid _); simpl in Hrun;
        [|inversion Hrun; subst; discriminate].
      destruct (users st !! _) as [ub|]; simpl in Hrun.
      * destruct (task_accepts _ _ _); simpl in Hrun;
          [|inversion Hrun; subst; discriminate].
        inversion Hrun; subst; clear Hrun. simpl. eexists.
        rewrite lookup_insert_eq. split; [reflexivity|]. split; [reflexivity|].
        apply (Hfields (user_name ub)). by right.
      * inversion Hrun; subst; clear Hrun. simpl. eexists.
        rewrite lookup_insert_eq. split; [reflexivity|]. split; [reflexivity|].
        apply (Hfields ""). by left.
    + inversion Hrun; subst; clear Hrun. simpl. eexists.
      rewrite lookup_insert_eq. split; [reflexivity|]. split; [reflexivity|].
      apply (Hfields ""). by left.
Qed.
End Partial.

(** Renaming Ann; describing and completing her task. *)
Lemma put_user_partial_update_witness :
  let body := mkUserBody (Some "Anna") None None in
  let out := @put_user sample_platform ann_id body sample_store in
  users sample_store !! ann_id = Some ann
  ∧ status out.2 = 200
  ∧ ∃ u', users out.1 !! ann_id = Some u'
          ∧ user_name u' = "Anna"
          ∧ user_email u' = "a@x.com"
          ∧ user_pendingTasks u' = [task1_id].
Proof.
  intros body out.
  assert (users sample_store !! ann_id = Some ann) as Hu by (vm_compute; reflexivity).
  assert (status out.2 = 200) as Hst by (vm_compute; reflexivity).
  split; [exact Hu|]. split; [exact Hst|].
  destruct (@put_user_partial_update sample_platform ann_id body sample_store
              out.1 out.2 ann Hu (surjective_pairing out) Hst)
    as (u' & H1 & _ & H2 & H3 & H4).
  exists u'. done.
Defined.

Lemma put_task_partial_update_witness :
  let body := mkTaskBody None (Some "urgent") (Some "") (Some true) None None in
  let out := @put_task sample_platform task1_id body sample_store in
  tasks sample_store !! task1_id = Some fix_bug
  ∧ status out.2 = 200
  ∧ tb_deadline body = Some ""
  ∧ ∃ t', tasks out.1 !! task1_id = Some t'
          ∧ task_name t' = "Fix bug"
          ∧ task_description t' = "urgent"
          ∧ task_completed t' = true
          ∧ task_deadline t' = DateNull.
Proof.
  intros body out.
  assert (tasks sample_store !! task1_id = Some fix_bug) as Ht
    by (vm_compute; reflexivity).
  assert (status out.2 = 200) as Hst by (vm_compute; reflexivity).
  split; [exact Ht|]. split; [exact Hst|]. split; [reflexivity|].
  destruct (@put_task_partial_update sample_platform task1_id body sample_store
              out.1 out.2 fix_bug Ht (surjective_pairing out) Hst)
    as (t' & H1 & _ & H2 & H3 & H4 & _ & _ & H5 & _).
  exists t'. split; [exact H1|]. split; [exact H2|]. split; [exact H3|].
  split; [exact H4|]. exact (H5 eq_refl).
Defined.
